(** * Appointment scheduling routers: a shallow embedding

    The development follows the three Express routers of the repository:

    - [src/AgendarCita/routes/citas.js], first part: the scheduling
      router (book, list, cancel), module [AgendarCita] below;
    - [src/unnamed/part_000]: a second revision of the same router,
      module [Revision];
    - [src/AgendarCita/routes/citas.js], second part: the availability
      router over the PostgreSQL table [Disponibilidad], module
      [DisponibilidadRouter].

    Handlers are written in a small monad that threads the state of the
    world (the Express response, the availability table, the log of what
    happened) and carries JavaScript completions: normal, [return], and
    [throw].

    Three things are left open rather than decided by the model.  An
    identifier is pasted unescaped into a URL: what Express reads as
    the route parameter is the identifier itself when it is plain (at
    most 64 letters, digits, [-] and [_]), and is left to [Routing]
    for any other text.  An axios call has no timeout: the runs are
    those in which every call is settled, by a response or by a
    failure.  A number handed to [res.send] is a status for one version
    of Express and a body for another: the statements about a body that
    is passed on exclude numbers. *)

From Stdlib Require Import ZArith List String Ascii Bool Lia DecimalString.
From Stdlib Require Import Permutation.
Import ListNotations.
Open Scope string_scope.
Open Scope Z_scope.

(** ** JavaScript values

    Bodies of HTTP messages are parsed JSON.  Numbers are the integers
    that a JavaScript number holds exactly and prints in decimal (up
    to 2^53 in absolute value); fractions and larger numbers are not
    represented. *)

#[warnings="-register-all"]
Inductive value : Type :=
| VUndefined
| VNull
| VBool (b : bool)
| VNum (n : Z)
| VStr (s : string)
| VArr (items : list value)
| VObj (props : list (string * value)).

(** [if (v)], [!v], [v || d]. *)
Definition truthy (v : value) : bool :=
  match v with
  | VUndefined | VNull => false
  | VBool b => b
  | VNum n => negb (n =? 0)
  | VStr s => negb (String.eqb s "")
  | VArr _ | VObj _ => true
  end.

Fixpoint lookup (k : string) (props : list (string * value)) : value :=
  match props with
  | [] => VUndefined
  | (k', v) :: rest => if String.eqb k k' then v else lookup k rest
  end.

(** [v.k] for the property names the routers read ([length] and field
    names, never an index).  [None] is the TypeError of reading a
    property of [null] or [undefined]. *)
Definition get_prop (v : value) (k : string) : option value :=
  match v with
  | VUndefined | VNull => None
  | VObj props => Some (lookup k props)
  | VArr items =>
      Some (if String.eqb k "length" then VNum (Z.of_nat (List.length items))
            else VUndefined)
  | VStr s =>
      Some (if String.eqb k "length" then VNum (Z.of_nat (String.length s))
            else VUndefined)
  | VBool _ | VNum _ => Some VUndefined
  end.

(** [a === b].  Arrays and objects compare by reference; two values that
    were parsed from different messages are never the same reference. *)
Definition strict_eq (a b : value) : bool :=
  match a, b with
  | VUndefined, VUndefined => true
  | VNull, VNull => true
  | VBool x, VBool y => Bool.eqb x y
  | VNum x, VNum y => x =? y
  | VStr x, VStr y => String.eqb x y
  | _, _ => false
  end.

Definition text_of_nat (n : nat) : string :=
  NilZero.string_of_uint (Nat.to_uint n).

(** [`${v}`] inside a template literal.  A number is printed in
    decimal, which is what JavaScript does for the integers of
    [value]; it prints 1e21 and above in exponent form, and those are
    not values here. *)
Fixpoint to_text (v : value) : string :=
  match v with
  | VUndefined => "undefined"
  | VNull => "null"
  | VBool true => "true"
  | VBool false => "false"
  | VNum n => NilZero.string_of_int (Z.to_int n)
  | VStr s => s
  | VArr items =>
      String.concat ","
        (map (fun x => match x with
                       | VUndefined | VNull => ""
                       | _ => to_text x
                       end) items)
  | VObj _ => "[object Object]"
  end.

Fixpoint indexed {A : Type} (i : nat) (l : list A) : list (string * A) :=
  match l with
  | [] => []
  | x :: rest => (text_of_nat i, x) :: indexed (S i) rest
  end.

Fixpoint chars (s : string) : list value :=
  match s with
  | EmptyString => []
  | String c rest => VStr (String c EmptyString) :: chars rest
  end.

(** The own enumerable properties copied by [{...v}]. *)
Definition own_props (v : value) : list (string * value) :=
  match v with
  | VObj props => props
  | VArr items => indexed 0 items
  | VStr s => indexed 0 (chars s)
  | _ => []
  end.

(** [{...props, k: v}]: an existing key keeps its place. *)
Fixpoint set_prop (k : string) (v : value) (props : list (string * value))
  : list (string * value) :=
  match props with
  | [] => [(k, v)]
  | (k', v') :: rest =>
      if String.eqb k k' then (k, v) :: rest
      else (k', v') :: set_prop k v rest
  end.

(** ** HTTP messages *)

Inductive method : Type := GET | POST | DELETE.

(** The four base URLs declared at the top of the scheduling router. *)
Inductive service : Type :=
| PACIENTE_SERVICE_URL        (* http://pacientes:8000/pacientes *)
| DOCTOR_SERVICE_URL          (* http://doctores:3000/doctors *)
| DISPONIBILIDAD_SERVICE_URL  (* http://doctores:3000/disponibilidad *)
| CITA_SERVICE_URL.           (* http://historiamedica:8080/citas *)

(** A request is its method, its URL (the base and the texts pasted
    after it, one per [/]; they are pasted as they are, unescaped) and
    the JSON body, if any. *)
Record request : Type := mkRequest {
  meth : method;
  base : service;
  path : list string;
  data : option value
}.

(** What comes back from a service: an HTTP response, or nothing. *)
Inductive reply : Type :=
| Http (status : Z) (body : value)
| NoResponse.

(** ** The availability table

    [Disponibilidad (dia, hora, dni_doctor)], a bag of rows of text. *)

Record Row : Type := mkRow {
  col_dia : string;
  col_hora : string;
  col_dni_doctor : string
}.

(** ** The world and what happens in it *)

Inductive event : Type :=
| Called (r : request) (a : reply)   (* an axios call and what came back *)
| Sent (status : Z) (body : value).  (* the Express response going out *)

Record world : Type := mkWorld {
  res : option (Z * value);     (* the response the caller received *)
  Disponibilidad : list Row;    (* the table *)
  log : list event              (* chronological *)
}.

(** What a handler can throw. *)
Inductive exn : Type :=
| AxiosError (response : option (Z * value))  (* error.response *)
| TypeError
| ERR_HTTP_HEADERS_SENT
| ERR_NUMERIC_BODY
| DatabaseError.

(** JavaScript completions of a block of statements. *)
Inductive completion (A : Type) : Type :=
| Normal (a : A)
| Returned                       (* a [return] left the handler *)
| Thrown (e : exn).
Arguments Normal {A} a.
Arguments Returned {A}.
Arguments Thrown {A} e.

Definition M (A : Type) : Type := world -> completion A * world.

Definition ret {A : Type} (a : A) : M A := fun w => (Normal a, w).

Definition bind {A B : Type} (m : M A) (k : A -> M B) : M B :=
  fun w =>
    match m w with
    | (Normal a, w') => k a w'
    | (Returned, w') => (Returned, w')
    | (Thrown e, w') => (Thrown e, w')
    end.

Definition throw {A : Type} (e : exn) : M A := fun w => (Thrown e, w).

(** [return m;] *)
Definition return_ (m : M unit) : M unit :=
  bind m (fun _ w => (Returned, w)).

(** [try { body } catch (error) { handler }] *)
Definition try_catch {A : Type} (body : M A) (handler : exn -> M A) : M A :=
  fun w =>
    match body w with
    | (Thrown e, w') => handler e w'
    | r => r
    end.

Declare Scope js_scope.
Delimit Scope js_scope with js.
Notation "x <- m ;; k" := (bind m (fun x => k))
  (at level 61, m at next level, right associativity) : js_scope.
Notation "m ;; k" := (bind m (fun _ => k))
  (at level 61, right associativity) : js_scope.
Open Scope js_scope.

(** [v.k], throwing on [null] and [undefined]. *)
Definition prop (v : value) (k : string) : M value :=
  match get_prop v k with
  | Some x => ret x
  | None => throw TypeError
  end.

(** Express sends no body with the statuses 204 and 304, whatever was
    handed to it. *)
Definition no_body (code : Z) : bool := (code =? 204) || (code =? 304).

(** What the caller receives when [body] goes out under [code]. *)
Definition received (code : Z) (body : value) : Z * value :=
  (code, if no_body code then VStr "" else body).

(** The response going out: the first one is what the caller receives;
    a second one throws. *)
Definition respond (code : Z) (b : value) : M unit :=
  fun w =>
    match res w with
    | Some _ => (Thrown ERR_HTTP_HEADERS_SENT, w)
    | None =>
        (Normal tt,
         {| res := Some (received code b);
            Disponibilidad := Disponibilidad w;
            log := log w ++ [Sent code (snd (received code b))] |})
    end.

(** [res.status(code).send(body)].  The body is a text in the routers,
    except where an upstream body is passed on.  A number handed to
    [send] is not a body in every version of Express: version 4 reads it
    as the status and sends the name of that status, or throws when
    it is none; version 5 sends it as JSON.  This is not modelled: the
    handler stops there with [ERR_NUMERIC_BODY] and nothing goes out, and
    what is stated about a response leaves out the runs that hand a
    number to [send].  Requests carry no conditional headers (Express
    would answer those with 304). *)
Definition send (code : Z) (b : value) : M unit :=
  match b with
  | VNum _ => throw ERR_NUMERIC_BODY
  | _ => respond code b
  end.

(** [res.json(body)] *)
Definition json (b : value) : M unit := respond 200 b.

(** The world at the start of a request. *)
Definition start (tabla : list Row) : world :=
  {| res := None; Disponibilidad := tabla; log := [] |}.

(** ** The availability router

    [src/AgendarCita/routes/citas.js], second part: three routes on
    [/:dni], mounted at [/disponibilidad] of the doctors' service. *)

Module DisponibilidadRouter.

(** The three parameterised statements the router sends to the pool. *)
Inductive query : Type :=
| SELECT (dni : string)
    (* SELECT * FROM Disponibilidad WHERE dni_doctor = $1 *)
| INSERT (dia hora : value) (dni : string)
    (* INSERT INTO Disponibilidad (dia, hora, dni_doctor) VALUES ($1, $2, $3) *)
| DELETE_WHERE (dni : string) (dia hora : value).
    (* DELETE FROM Disponibilidad WHERE dni_doctor = $1 AND dia = $2 AND hora = $3 *)

Record result : Type := mkResult {
  rows : list Row;
  rowCount : nat
}.

(** How the driver binds a JavaScript value to a text parameter:
    [null] and [undefined] become NULL, strings, numbers and booleans
    their text.  The driver binds an array as an array literal and an
    object as its JSON text; these texts are not modelled, and a
    statement that binds one is [Unsupported]: it ends as a failed
    statement here, which is not what the driver does, so that
    everything stated about the router's statements is stated for
    fields that are [null], [undefined], texts, numbers or booleans. *)
Inductive param : Type := Null | Text (s : string) | Unsupported.

Definition bind_param (v : value) : param :=
  match v with
  | VUndefined | VNull => Null
  | VBool _ | VNum _ | VStr _ => Text (to_text v)
  | VArr _ | VObj _ => Unsupported
  end.

Definition is_slot (dni dia hora : string) (r : Row) : bool :=
  String.eqb (col_dni_doctor r) dni
  && String.eqb (col_dia r) dia
  && String.eqb (col_hora r) hora.

Definition with_table (w : world) (t : list Row) : world :=
  {| res := res w; Disponibilidad := t; log := log w |}.

(** [await pool.query(text, params)]; [ok] tells whether the database
    answers.  The sources do not contain the declaration of the table:
    here its rows are text and duplicates are kept, and a NULL is
    refused (a column declared NOT NULL), so that no row holds one. *)
Definition pool_query (ok : bool) (q : query) : M result :=
  fun w =>
    if negb ok then (Thrown DatabaseError, w)
    else
      let t := Disponibilidad w in
      match q with
      | SELECT dni =>
          let found := filter (fun r => String.eqb (col_dni_doctor r) dni) t in
          (Normal (mkResult found (List.length found)), w)
      | INSERT dia hora dni =>
          match bind_param dia, bind_param hora with
          | Text d, Text h =>
              (Normal (mkResult [] 1), with_table w (t ++ [mkRow d h dni]))
          | _, _ => (Thrown DatabaseError, w)
          end
      | DELETE_WHERE dni dia hora =>
          match bind_param dia, bind_param hora with
          | Text d, Text h =>
              let gone := filter (is_slot dni d h) t in
              let kept := filter (fun r => negb (is_slot dni d h r)) t in
              (Normal (mkResult [] (List.length gone)), with_table w kept)
          | Unsupported, _ | _, Unsupported => (Thrown DatabaseError, w)
          | _, _ => (Normal (mkResult [] 0), w)
          end
      end.

(** A row as the driver hands it to [res.json]. *)
Definition row_json (r : Row) : value :=
  VObj [("dia", VStr (col_dia r));
        ("hora", VStr (col_hora r));
        ("dni_doctor", VStr (col_dni_doctor r))].

Section Handlers.
Variable ok : bool.

(** What Express reads as [:dni] in the text pasted after the mount
    path, if the route matches at all. *)
Variable param : string -> option string.

(** [router.get('/:dni', ...)] *)
Definition get_dni (dni : string) : M unit :=
  try_catch
    (result <- pool_query ok (SELECT dni) ;;
     json (VArr (map row_json (rows result))))
    (fun err =>
       send 500 (VStr "Error al obtener la disponibilidad del doctor")).

(** [router.post('/:dni', ...)] *)
Definition post_dni (dni : string) (body : value) : M unit :=
  dia <- prop body "dia" ;;
  hora <- prop body "hora" ;;
  try_catch
    (pool_query ok (INSERT dia hora dni) ;;
     send 200 (VStr "Disponibilidad agregada con éxito"))
    (fun err => send 500 (VStr "Error al agregar la disponibilidad")).

(** [router.delete('/:dni', ...)] *)
Definition delete_dni (dni : string) (body : value) : M unit :=
  dia <- prop body "dia" ;;
  hora <- prop body "hora" ;;
  try_catch
    (result <- pool_query ok (DELETE_WHERE dni dia hora) ;;
     if (rowCount result =? 0)%nat
     then return_ (send 404 (VStr "Disponibilidad no encontrada"))
     else send 200 (VStr "Disponibilidad eliminada con éxito"))
    (fun err => send 500 (VStr "Error al eliminar la disponibilidad")).

(** The body parser gives [{}] to a request without body. *)
Definition req_body (r : request) : value :=
  match data r with
  | Some b => b
  | None => VObj []
  end.

(** Express picks the route by method; the three routes are on
    [/:dni], which matches one segment and hands it on decoded.  A URL
    that matches none falls through to the framework, which refuses
    the request. *)
Definition route (r : request) : option (M unit) :=
  match path r with
  | [text] =>
      match param text with
      | Some dni =>
          Some (match meth r with
                | GET => get_dni dni
                | POST => post_dni dni (req_body r)
                | DELETE => delete_dni dni (req_body r)
                end)
      | None => None
      end
  | _ => None
  end.

(** One request served on a table: what the client gets back and the
    table afterwards.  A handler that ends without sending leaves
    the client without response.  A URL that matches no route is
    refused by the framework; its 404 stands here for every such
    refusal (a malformed escape is refused with 400): none is a 2xx,
    and nothing below tells them apart. *)
Definition serve (r : request) (t : list Row) : reply * list Row :=
  match route r with
  | None => (Http 404 (VStr "Not Found"), t)
  | Some handler =>
      let w := snd (handler (start t)) in
      (match res w with
       | Some (code, b) => Http code b
       | None => NoResponse
       end,
       Disponibilidad w)
  end.
End Handlers.

End DisponibilidadRouter.

(** ** The environment of a request

    The patient directory, the doctor directory and the history service
    are not part of the repository: [upstream] is what they answer.  The
    availability service is the router above behind a network link and a
    database.  Each is asked at a time: the number of calls the handler
    has issued before. *)

Inductive link : Type :=
| Delivered   (* the request reaches the router, its response the caller *)
| Dropped     (* the request does not reach the router *)
| Lost.       (* the request is served, the response never arrives *)

(** A request that the server refuses before the router sees it (a body
    over the limit of the parser) is one that does not reach the
    router.  The caller gets a response then, with an error status,
    where [Dropped] gives none: the handlers do not look at how a call
    to the availability service was rejected. *)

(** A plain identifier: at most 64 letters, digits, [-] and [_].  It is
    one segment of the URL it is pasted into, and Express reads it back
    unchanged. *)
Definition plain_char (c : ascii) : bool :=
  let n := nat_of_ascii c in
  (((48 <=? n) && (n <=? 57))
   || ((65 <=? n) && (n <=? 90))
   || ((97 <=? n) && (n <=? 122))
   || (n =? 45) || (n =? 95))%nat.

Fixpoint all_plain (s : string) : bool :=
  match s with
  | EmptyString => true
  | String c rest => plain_char c && all_plain rest
  end.

Definition plain (s : string) : bool :=
  negb (String.eqb s "") && (String.length s <=? 64)%nat && all_plain s.

(** Any other text is cut and decoded by the URL parser and by Express
    before it is a parameter ([45?x] and [45#x] are read as [45], [45/6]
    and the empty text match no route of the availability router,
    [a%20b] is read with a space).  That is not modelled: [routing]
    stands for what is read, [None] when the router has no route for
    the URL.  It is the same for every request, and everything below is
    stated for whatever it is. *)
Class Routing : Type := routing : string -> option string.

(** The parameter [:dni] of the availability router for a text pasted
    into its URL. *)
Definition route_param {R : Routing} (text : string) : option string :=
  if plain text then Some text else routing text.

Record Env : Type := mkEnv {
  upstream : nat -> request -> reply;
  network : nat -> link;
  pool_ok : nat -> bool
}.

Fixpoint issued (l : list event) : nat :=
  match l with
  | [] => O
  | Called _ _ :: rest => S (issued rest)
  | Sent _ _ :: rest => issued rest
  end.

Definition is_2xx (code : Z) : bool := (200 <=? code) && (code <? 300).

Section Axios.
Context {R : Routing}.
Variable env : Env.

(** The answer to request [r] issued at time [n] on table [t]. *)
Definition answer (n : nat) (r : request) (t : list Row) : reply * list Row :=
  match base r with
  | DISPONIBILIDAD_SERVICE_URL =>
      match network env n with
      | Dropped => (NoResponse, t)
      | Lost =>
          (NoResponse,
           snd (DisponibilidadRouter.serve (pool_ok env n) route_param r t))
      | Delivered =>
          DisponibilidadRouter.serve (pool_ok env n) route_param r t
      end
  | _ => (upstream env n r, t)
  end.

(** [(await axios(r)).data]: resolves on a 2xx status, rejects with
    [error.response] set on any other status and without it when no
    response came.  The sources set no timeout: a call that is never
    answered and never fails keeps the handler waiting for good.  Such
    a run has no end and is not among the runs below, where every call
    is settled; what is stated of a run is stated of the runs in which
    every call the handler makes is settled. *)
Definition axios (r : request) : M value :=
  fun w =>
    let '(a, t) := answer (issued (log w)) r (Disponibilidad w) in
    let w' := {| res := res w; Disponibilidad := t;
                 log := log w ++ [Called r a] |} in
    match a with
    | Http code d =>
        if is_2xx code then (Normal d, w')
        else (Thrown (AxiosError (Some (code, d))), w')
    | NoResponse => (Thrown (AxiosError None), w')
    end.

Definition axios_get (b : service) (p : list string) : M value :=
  axios (mkRequest GET b p None).
Definition axios_post (b : service) (p : list string) (d : value) : M value :=
  axios (mkRequest POST b p (Some d)).
Definition axios_delete (b : service) (p : list string) (d : option value)
  : M value :=
  axios (mkRequest DELETE b p d).
End Axios.

(** [error.response?.status || 500] *)
Definition status_or_500 (error : exn) : Z :=
  match error with
  | AxiosError (Some (code, _)) => if code =? 0 then 500 else code
  | _ => 500
  end.


(** ** The scheduling router, [src/AgendarCita/routes/citas.js] *)

(** The body of [POST /agendar]: four required strings. *)
Record agendar_body : Type := mkBody {
  dniPaciente : string;
  dniDoctor : string;
  dia : string;
  hora : string
}.

(** [items.some(d => d.dia === dia && d.hora === hora)] *)
Fixpoint some_slot (dia hora : string) (items : list value) : M bool :=
  match items with
  | [] => ret false
  | d :: rest =>
      d_dia <- prop d "dia" ;;
      if strict_eq d_dia (VStr dia)
      then d_hora <- prop d "hora" ;;
           if strict_eq d_hora (VStr hora) then ret true
           else some_slot dia hora rest
      else some_slot dia hora rest
  end.

(** [v.some(...)]: only an array has the method. *)
Definition some (v : value) (dia hora : string) : M bool :=
  match v with
  | VArr items => some_slot dia hora items
  | _ => throw TypeError
  end.

(** [await Promise.all(items.map(callback))].  [map] starts every
    callback, in order, and each one issues its request before the next
    one starts; a callback that throws rejects the whole, the others
    having run all the same.  Callbacks share nothing, so the order in
    which their responses arrive does not matter. *)
Fixpoint all_map (callback : value -> M value) (items : list value)
  : M (list value) :=
  match items with
  | [] => ret []
  | x :: rest =>
      fun w =>
        match callback x w with
        | (Normal v, w1) =>
            match all_map callback rest w1 with
            | (Normal vs, w2) => (Normal (v :: vs), w2)
            | (Returned, w2) => (Returned, w2)
            | (Thrown e, w2) => (Thrown e, w2)
            end
        | (Returned, w1) => (Returned, snd (all_map callback rest w1))
        | (Thrown e, w1) => (Thrown e, snd (all_map callback rest w1))
        end
  end.

(** [v.map(...)]: only an array has the method. *)
Definition promise_all_map (v : value) (callback : value -> M value)
  : M (list value) :=
  match v with
  | VArr items => all_map callback items
  | _ => throw TypeError
  end.

Definition doctor_error : string := "Error al obtener los datos del doctor".

Module AgendarCita.
Section Router.
Context {R : Routing}.
Variable env : Env.

(** [router.post('/agendar', ...)] *)
Definition post_agendar (body : agendar_body) : M unit :=
  let dniPaciente := dniPaciente body in
  let dniDoctor := dniDoctor body in
  let dia := dia body in
  let hora := hora body in
  try_catch
    ((* 1. Verificar si el paciente existe *)
     try_catch
       (pacienteResponse <- axios_get env PACIENTE_SERVICE_URL [dniPaciente] ;;
        if truthy pacienteResponse then ret tt
        else return_ (send 404 (VStr "Paciente no encontrado")))
       (fun error =>
          let statusCode := status_or_500 error in
          let errorMessage :=
            if statusCode =? 404 then "Paciente no encontrado"
            else "Error al verificar el Paciente" in
          return_ (send statusCode (VStr errorMessage))) ;;
     (* 2. Verificar que el doctor existe *)
     try_catch
       (doctorResponse <- axios_get env DOCTOR_SERVICE_URL [dniDoctor] ;;
        if truthy doctorResponse then ret tt
        else return_ (send 404 (VStr "Doctor no encontrado")))
       (fun error =>
          let statusCode := status_or_500 error in
          let errorMessage :=
            if statusCode =? 404 then "Doctor no encontrado"
            else "Error al verificar el doctor" in
          return_ (send statusCode (VStr errorMessage))) ;;
     (* 3. Verificar la disponibilidad del doctor *)
     disponibilidad <- axios_get env DISPONIBILIDAD_SERVICE_URL [dniDoctor] ;;
     available <- some disponibilidad dia hora ;;
     if negb available
     then return_ (send 400 (VStr
            "El doctor no está disponible en la fecha y hora solicitadas."))
     else
       (* 4. Crear la cita *)
       let citaData := VObj [("dniPaciente", VStr dniPaciente);
                             ("dniDoctor", VStr dniDoctor);
                             ("dia", VStr dia);
                             ("hora", VStr hora)] in
       citaResponse <- axios_post env CITA_SERVICE_URL [dniPaciente] citaData ;;
       send 201 (VStr "Cita agendada con éxito") ;;
       (* 5. Eliminar la disponibilidad usada del doctor *)
       axios_delete env DISPONIBILIDAD_SERVICE_URL [dniDoctor]
         (Some (VObj [("dia", VStr dia); ("hora", VStr hora)])) ;;
       ret tt)
    (fun error => send 500 (VStr "Error al agendar la cita")).

(** The callback of [citas.map] in [router.get('/:dniPaciente', ...)];
    the [catch] block reads [cita.dniDoctor] again for its message. *)
Definition con_doctor (cita : value) : M value :=
  try_catch
    (dniDoctor <- prop cita "dniDoctor" ;;
     doctorData <- axios_get env DOCTOR_SERVICE_URL [to_text dniDoctor] ;;
     fecha <- prop cita "dia" ;;
     hora <- prop cita "hora" ;;
     nombres <- prop doctorData "nombres" ;;
     apellidos <- prop doctorData "apellidos" ;;
     especialidad <- prop doctorData "especialidad" ;;
     ret (VObj [("fecha", fecha);
                ("hora", hora);
                ("doctor", VObj [("nombres", nombres);
                                 ("apellidos", apellidos);
                                 ("especialidad", especialidad)])]))
    (fun error =>
       prop cita "dniDoctor" ;;
       ret (VObj (set_prop "doctor" (VStr doctor_error) (own_props cita)))).

(** [router.get('/:dniPaciente', ...)] *)
Definition get_dniPaciente (dniPaciente : string) : M unit :=
  try_catch
    ((* 1. Obtener las citas del paciente *)
     citas <- axios_get env CITA_SERVICE_URL ["paciente"; dniPaciente] ;;
     length <- prop citas "length" ;;
     if negb (truthy length)
     then return_ (send 404 (VStr
            ("No se encontraron citas para el paciente con DNI " ++ dniPaciente)))
     else
       (* 2. Para cada cita, obtener los detalles del doctor *)
       citasConDoctor <- promise_all_map citas con_doctor ;;
       (* 3. Devolver las citas con la información del doctor *)
       json (VArr citasConDoctor))
    (fun error => send 500 (VStr "Error al obtener las citas del paciente")).

(** [router.delete('/cancelar/:idCita', ...)].  The inner [catch] sends
    its response and falls through to the last [send]. *)
Definition delete_cancelar (idCita : string) : M unit :=
  try_catch
    ((* 1. Obtener la información de la cita *)
     cita <- axios_get env CITA_SERVICE_URL ["cita"; idCita] ;;
     if negb (truthy cita)
     then return_ (send 404 (VStr "Cita no encontrada"))
     else
       (* 2. Eliminar la cita de la base de datos *)
       axios_delete env CITA_SERVICE_URL ["cita"; idCita] None ;;
       (* 3. Restaurar la disponibilidad del doctor *)
       dniDoctor <- prop cita "dniDoctor" ;;
       dia <- prop cita "dia" ;;
       hora <- prop cita "hora" ;;
       let disponibilidadData := VObj [("dia", dia); ("hora", hora)] in
       try_catch
         (axios_post env DISPONIBILIDAD_SERVICE_URL [to_text dniDoctor]
            disponibilidadData ;;
          ret tt)
         (fun err =>
            send 500 (VStr
              ("Error restarurando la disponibilidad para el doctor "
               ++ to_text dniDoctor ++ " en " ++ to_text dia
               ++ " a las " ++ to_text hora))) ;;
       send 200 (VStr "Cita cancelada y disponibilidad restaurada con éxito"))
    (fun error => send 500 (VStr "Error al cancelar la cita")).

End Router.
End AgendarCita.

(** ** The second revision of the scheduling router,
    [src/unnamed/part_000] *)

Module Revision.
Section Router.
Context {R : Routing}.
Variable env : Env.

(** [router.post('/agendar', ...)]: the same text as in the first
    revision, statement for statement. *)
Definition post_agendar : agendar_body -> M unit :=
  AgendarCita.post_agendar env.

(** The callback of [citas.map]: the entry also carries [cita.id]. *)
Definition con_doctor (cita : value) : M value :=
  try_catch
    (dniDoctor <- prop cita "dniDoctor" ;;
     doctorData <- axios_get env DOCTOR_SERVICE_URL [to_text dniDoctor] ;;
     id <- prop cita "id" ;;
     fecha <- prop cita "dia" ;;
     hora <- prop cita "hora" ;;
     nombres <- prop doctorData "nombres" ;;
     apellidos <- prop doctorData "apellidos" ;;
     especialidad <- prop doctorData "especialidad" ;;
     ret (VObj [("id", id);
                ("fecha", fecha);
                ("hora", hora);
                ("doctor", VObj [("nombres", nombres);
                                 ("apellidos", apellidos);
                                 ("especialidad", especialidad)])]))
    (fun error =>
       prop cita "dniDoctor" ;;
       ret (VObj (set_prop "doctor" (VStr doctor_error) (own_props cita)))).

(** [router.get('/:dniPaciente', ...)] *)
Definition get_dniPaciente (dniPaciente : string) : M unit :=
  try_catch
    (citas <- axios_get env CITA_SERVICE_URL ["paciente"; dniPaciente] ;;
     length <- prop citas "length" ;;
     if negb (truthy length)
     then return_ (send 404 (VStr
            ("No se encontraron citas para el paciente con DNI " ++ dniPaciente)))
     else
       citasConDoctor <- promise_all_map citas con_doctor ;;
       json (VArr citasConDoctor))
    (fun error => send 500 (VStr "Error al obtener las citas del paciente")).

(** [error.response.data || 'Error al cancelar la cita'] *)
Definition data_or (d : value) (fallback : string) : value :=
  if truthy d then d else VStr fallback.

(** [router.delete('/cancelar/:idCita', ...)].  The appointment is read
    and deleted at [CITA_SERVICE_URL/idCita]; the inner [catch] returns;
    the outer one passes an upstream status through. *)
Definition delete_cancelar (idCita : string) : M unit :=
  try_catch
    (cita <- axios_get env CITA_SERVICE_URL [idCita] ;;
     if negb (truthy cita)
     then return_ (send 404 (VStr "Cita no encontrada"))
     else
       axios_delete env CITA_SERVICE_URL [idCita] None ;;
       dniDoctor <- prop cita "dniDoctor" ;;
       dia <- prop cita "dia" ;;
       hora <- prop cita "hora" ;;
       let disponibilidadData := VObj [("dia", dia); ("hora", hora)] in
       try_catch
         (axios_post env DISPONIBILIDAD_SERVICE_URL [to_text dniDoctor]
            disponibilidadData ;;
          ret tt)
         (fun err =>
            return_ (send 500 (VStr
              ("Error al restaurar la disponibilidad del doctor "
               ++ to_text dniDoctor)))) ;;
       send 200 (VStr "Cita cancelada y disponibilidad restaurada con éxito"))
    (fun error =>
       match error with
       | AxiosError (Some (code, d)) =>
           return_ (send code (data_or d "Error al cancelar la cita"))
       | AxiosError None =>
           return_ (send 500 (VStr "No se recibió respuesta del servicio de citas"))
       | _ =>
           return_ (send 500 (VStr "Error desconocido al cancelar la cita"))
       end).

End Router.
End Revision.


(** ** Observations on a finished request *)

(** The world a handler leaves behind when it starts on table [t]. *)
Definition run {A : Type} (handler : M A) (t : list Row) : world :=
  snd (handler (start t)).

Definition method_eqb (a b : method) : bool :=
  match a, b with
  | GET, GET | POST, POST | DELETE, DELETE => true
  | _, _ => false
  end.

Definition service_eqb (a b : service) : bool :=
  match a, b with
  | PACIENTE_SERVICE_URL, PACIENTE_SERVICE_URL
  | DOCTOR_SERVICE_URL, DOCTOR_SERVICE_URL
  | DISPONIBILIDAD_SERVICE_URL, DISPONIBILIDAD_SERVICE_URL
  | CITA_SERVICE_URL, CITA_SERVICE_URL => true
  | _, _ => false
  end.

(** The requests with method [m] that the handler issued to [b]. *)
Fixpoint requests_to (m : method) (b : service) (l : list event)
  : list request :=
  match l with
  | [] => []
  | Called r _ :: rest =>
      if method_eqb (meth r) m && service_eqb (base r) b
      then r :: requests_to m b rest
      else requests_to m b rest
  | Sent _ _ :: rest => requests_to m b rest
  end.

(** A lookup that says "not found": a 404, or a 2xx whose body is
    falsy. *)
Definition not_found (a : reply) : bool :=
  match a with
  | Http code d => (code =? 404) || (is_2xx code && negb (truthy d))
  | NoResponse => false
  end.

(** A lookup that found something: a 2xx with a truthy body. *)
Definition found (a : reply) : bool :=
  match a with
  | Http code d => is_2xx code && truthy d
  | NoResponse => false
  end.

(** An axios call that resolves. *)
Definition resolves (a : reply) : bool :=
  match a with
  | Http code _ => is_2xx code
  | NoResponse => false
  end.

(** The requests of a booking, in the order in which it issues them:
    patient lookup (time 0), doctor lookup (1), availability list (2),
    appointment creation (3), slot deletion (4). *)
Definition get_paciente (body : agendar_body) : request :=
  mkRequest GET PACIENTE_SERVICE_URL [dniPaciente body] None.

Definition get_doctor (body : agendar_body) : request :=
  mkRequest GET DOCTOR_SERVICE_URL [dniDoctor body] None.

Definition get_disponibilidad (body : agendar_body) : request :=
  mkRequest GET DISPONIBILIDAD_SERVICE_URL [dniDoctor body] None.

Definition citaData (body : agendar_body) : value :=
  VObj [("dniPaciente", VStr (dniPaciente body));
        ("dniDoctor", VStr (dniDoctor body));
        ("dia", VStr (dia body));
        ("hora", VStr (hora body))].

Definition post_cita (body : agendar_body) : request :=
  mkRequest POST CITA_SERVICE_URL [dniPaciente body] (Some (citaData body)).

Definition delete_disponibilidad (body : agendar_body) : request :=
  mkRequest DELETE DISPONIBILIDAD_SERVICE_URL [dniDoctor body]
    (Some (VObj [("dia", VStr (dia body)); ("hora", VStr (hora body))])).

(** ** Vocabulary of the statements *)

Arguments answer : simpl never.
Arguments all_map : simpl never.

(** *** Book *)

(** A remote failure other than "not found": no response at all, or a
    status that is neither a 2xx nor 404. *)
Definition upstream_failure (a : reply) : bool :=
  match a with
  | Http code _ => negb (is_2xx code) && negb (code =? 404)
  | NoResponse => true
  end.

(** The status the verification steps answer with:
    [error.response?.status || 500]. *)
Definition passed_status (a : reply) : Z :=
  match a with
  | Http code _ => if code =? 0 then 500 else code
  | NoResponse => 500
  end.

(** The statement that every such failure of the patient or of the
    doctor verification is answered with status 500. *)
Definition upstream_failure_is_500 : Prop :=
  forall (R : Routing) (env : Env) (tabla : list Row) (body : agendar_body),
    upstream_failure (upstream env 0 (get_paciente body)) = true
    \/ (found (upstream env 0 (get_paciente body)) = true
        /\ upstream_failure (upstream env 1 (get_doctor body)) = true) ->
    exists msg,
      res (run (AgendarCita.post_agendar env body) tabla) = Some (500, msg).

Definition of_doctor (dni : string) (t : list Row) : list Row :=
  filter (fun r => String.eqb (col_dni_doctor r) dni) t.

Definition at_time (dia hora : string) (r : Row) : bool :=
  String.eqb (col_dia r) dia && String.eqb (col_hora r) hora.

Definition slot_of (body : agendar_body) (r : Row) : bool :=
  DisponibilidadRouter.is_slot (dniDoctor body) (dia body) (hora body) r.

Definition without_slot (body : agendar_body) (t : list Row) : list Row :=
  filter (fun r => negb (slot_of body r)) t.

Definition the_slot (body : agendar_body) : Row :=
  mkRow (dia body) (hora body) (dniDoctor body).

(** The statement that a booking whose patient and doctor are found and
    whose slot is listed always answers 201, creates one appointment and
    removes one slot. *)
Definition booking_with_slot_succeeds : Prop :=
  forall (R : Routing) (env : Env) (tabla : list Row) (body : agendar_body),
    found (upstream env 0 (get_paciente body)) = true ->
    found (upstream env 1 (get_doctor body)) = true ->
    resolves (fst (answer env 2 (get_disponibilidad body) tabla)) = true ->
    In (the_slot body) tabla ->
    let w := run (AgendarCita.post_agendar env body) tabla in
    res w = Some (201, VStr "Cita agendada con éxito")
    /\ requests_to POST CITA_SERVICE_URL (log w) = [post_cita body]
    /\ (List.length (Disponibilidad w) + 1 = List.length tabla)%nat.

(** The list that the fetch of the availability brought, when it
    resolved with one. *)
Definition fetched (a : reply) : option (list value) :=
  match a with
  | Http code (VArr slots) => if is_2xx code then Some slots else None
  | _ => None
  end.

(** What the test of the handler says of a fetched list ([None] when it
    throws). *)
Definition slot_listed (dia hora : string) (slots : list value)
  : option bool :=
  match fst (some_slot dia hora slots (start [])) with
  | Normal b => Some b
  | _ => None
  end.

(** *** Cancel *)

(** [v.k] for a [v] that is neither [null] nor [undefined]. *)
Definition field (v : value) (k : string) : value :=
  match get_prop v k with
  | Some x => x
  | None => VUndefined
  end.

(** The requests of a cancellation: appointment lookup (time 0),
    appointment deletion (1), slot insertion (2). *)
Definition get_cita (idCita : string) : request :=
  mkRequest GET CITA_SERVICE_URL ["cita"; idCita] None.

Definition delete_cita (idCita : string) : request :=
  mkRequest DELETE CITA_SERVICE_URL ["cita"; idCita] None.

(** The second revision reads and deletes at [CITA_SERVICE_URL/idCita]. *)
Definition get_cita' (idCita : string) : request :=
  mkRequest GET CITA_SERVICE_URL [idCita] None.

Definition delete_cita' (idCita : string) : request :=
  mkRequest DELETE CITA_SERVICE_URL [idCita] None.

(** The request that puts the slot of appointment [cita] back. *)
Definition post_disponibilidad (cita : value) : request :=
  mkRequest POST DISPONIBILIDAD_SERVICE_URL
    [to_text (field cita "dniDoctor")]
    (Some (VObj [("dia", field cita "dia"); ("hora", field cita "hora")])).

(** *** List *)

Definition nullish (v : value) : bool :=
  match v with
  | VUndefined | VNull => true
  | _ => false
  end.

(** The requests of a listing: the appointments of the patient (time
    0), then one doctor lookup per appointment (times 1, 2, ...). *)
Definition get_citas (dniPaciente : string) : request :=
  mkRequest GET CITA_SERVICE_URL ["paciente"; dniPaciente] None.

(** The doctor lookup of appointment [cita]. *)
Definition get_doctor_of (cita : value) : request :=
  mkRequest GET DOCTOR_SERVICE_URL [to_text (field cita "dniDoctor")] None.

Definition doctor_fields (d : value) : value :=
  VObj [("nombres", field d "nombres");
        ("apellidos", field d "apellidos");
        ("especialidad", field d "especialidad")].

(** The entry of an appointment whose doctor was fetched, first and
    second revision. *)
Definition enriched (cita d : value) : value :=
  VObj [("fecha", field cita "dia");
        ("hora", field cita "hora");
        ("doctor", doctor_fields d)].

Definition enriched' (cita d : value) : value :=
  VObj [("id", field cita "id");
        ("fecha", field cita "dia");
        ("hora", field cita "hora");
        ("doctor", doctor_fields d)].

(** The entry of an appointment whose doctor could not be fetched: the
    appointment itself with the error text as its doctor. *)
Definition marked (cita : value) : value :=
  VObj (set_prop "doctor" (VStr doctor_error) (own_props cita)).

(** The doctor lookup gave a document to read the doctor's fields from. *)
Definition doctor_fetched (a : reply) : bool :=
  match a with
  | Http code d => is_2xx code && negb (nullish d)
  | NoResponse => false
  end.

Definition entry_of (enrich : value -> value -> value) (cita : value)
    (a : reply) : value :=
  match a with
  | Http code d =>
      if is_2xx code && negb (nullish d) then enrich cita d else marked cita
  | NoResponse => marked cita
  end.

Definition add_called (w : world) (r : request) (a : reply) : world :=
  {| res := res w; Disponibilidad := Disponibilidad w;
     log := log w ++ [Called r a] |}.

Section Entries.
Variable env : Env.
Variable enrich : value -> value -> value.

(** The entries and the calls of a list of appointments whose first
    lookup is issued at time [k]. *)
Fixpoint entries_from (k : nat) (items : list value) : list value :=
  match items with
  | [] => []
  | x :: rest =>
      entry_of enrich x (upstream env k (get_doctor_of x))
      :: entries_from (S k) rest
  end.

Fixpoint calls_from (k : nat) (items : list value) : list event :=
  match items with
  | [] => []
  | x :: rest =>
      Called (get_doctor_of x) (upstream env k (get_doctor_of x))
      :: calls_from (S k) rest
  end.

End Entries.

(** ** Data to try the statements on *)

(** Two environments to try the theorems on.  In [todo_bien] every
    service answers 200 with a document; [con_fallo n a] answers [a] to
    the call issued at time [n] and behaves like [todo_bien] otherwise. *)
Definition documento : value :=
  VObj [("nombres", VStr "Ana"); ("apellidos", VStr "Ruiz");
        ("especialidad", VStr "Cardiología")].

Definition todo_bien : Env :=
  {| upstream := fun _ _ => Http 200 documento;
     network := fun _ => Delivered;
     pool_ok := fun _ => true |}.

Definition con_fallo (n : nat) (a : reply) : Env :=
  {| upstream := fun k _ => if Nat.eqb k n then a else Http 200 documento;
     network := fun _ => Delivered;
     pool_ok := fun _ => true |}.

(** The database does not answer the query made at time [n]. *)
Definition base_caida (n : nat) : Env :=
  {| upstream := fun _ _ => Http 200 documento;
     network := fun _ => Delivered;
     pool_ok := fun k => negb (Nat.eqb k n) |}.

(** A server whose router has no route but for plain identifiers. *)
Definition solo_simples : Routing := fun _ => None.

(** A server that reads [45?x] as [45], the query cut off, and has no
    route for the other texts that are not plain, [45/6] among them. *)
Definition sin_consulta : Routing :=
  fun text => if String.eqb text "45?x" then Some "45" else None.

Definition lunes_9_de (dni : string) : agendar_body :=
  {| dniPaciente := "123"; dniDoctor := dni;
     dia := "Lunes"; hora := "09:00:00" |}.

Definition lunes_9 : agendar_body :=
  {| dniPaciente := "123"; dniDoctor := "456";
     dia := "Lunes"; hora := "09:00:00" |}.

Definition agenda_456 : list Row :=
  [mkRow "Lunes" "09:00:00" "456"; mkRow "Martes" "10:00:00" "456";
   mkRow "Lunes" "09:00:00" "789"].

(** An appointment as the history service keeps it. *)
Definition cita_7 : value :=
  VObj [("id", VNum 7); ("dniPaciente", VStr "123");
        ("dniDoctor", VStr "456"); ("dia", VStr "Lunes");
        ("hora", VStr "09:00:00")].

(** An environment in which the history service answers [a] to every
    request, the directories answer with a document, and the database
    answers at the times [db] says. *)
Definition historia (a : reply) (db : nat -> bool) : Env :=
  {| upstream := fun _ r =>
       match base r with
       | CITA_SERVICE_URL => a
       | _ => Http 200 documento
       end;
     network := fun _ => Delivered;
     pool_ok := db |}.

Definition cita_8 : value :=
  VObj [("id", VNum 8); ("dniPaciente", VStr "123");
        ("dniDoctor", VStr "789"); ("dia", VStr "Martes");
        ("hora", VStr "10:00:00")].

(** The history service lists two appointments; the second doctor
    lookup (the call at time 2) gets no response. *)
Definition listado : Env :=
  {| upstream := fun n r =>
       match base r with
       | CITA_SERVICE_URL => Http 200 (VArr [cita_7; cita_8])
       | _ => if Nat.eqb n 2 then NoResponse else Http 200 documento
       end;
     network := fun _ => Delivered;
     pool_ok := fun _ => true |}.

(** ** Further vocabulary: the availability router on its own *)

(** A request body [{dia, hora}] with both fields text. *)
Definition slot_body (body : value) (dia hora : string) : Prop :=
  get_prop body "dia" = Some (VStr dia)
  /\ get_prop body "hora" = Some (VStr hora).

(** A value that is not an array or an object. *)
Definition primitive (v : value) : bool :=
  match v with
  | VArr _ | VObj _ => false
  | _ => true
  end.

Definition not_slot (dni dia hora : string) (r : Row) : bool :=
  negb (DisponibilidadRouter.is_slot dni dia hora r).

(** ** Further vocabulary: cancelling *)

(** An appointment whose doctor, day and time are text. *)
Definition cita_slot (cita : value) (dni dia hora : string) : Prop :=
  get_prop cita "dniDoctor" = Some (VStr dni)
  /\ get_prop cita "dia" = Some (VStr dia)
  /\ get_prop cita "hora" = Some (VStr hora).

(** What the caller of the second revision receives when a call to the
    history service is rejected: the upstream status with the upstream
    body (none under 304), or 500 when no response came. *)
Definition passed_on (a : reply) : Z * value :=
  match a with
  | Http code d =>
      received code (Revision.data_or d "Error al cancelar la cita")
  | NoResponse => (500, VStr "No se recibió respuesta del servicio de citas")
  end.

(** A number as upstream body is not passed on as a body by every
    version of Express: answers with such a body are left out where a
    body is passed on. *)
Definition not_a_number (a : reply) : Prop :=
  forall code n, a <> Http code (VNum n).

(** ** Further vocabulary: listing *)

(** An event that is a GET to the doctor directory. *)
Definition doctor_lookup (e : event) : Prop :=
  match e with
  | Called q _ => meth q = GET /\ base q = DOCTOR_SERVICE_URL
  | Sent _ _ => False
  end.

(** From [w] to [w'] nothing happened but doctor lookups. *)
Definition only_lookups (w w' : world) : Prop :=
  res w' = res w
  /\ Disponibilidad w' = Disponibilidad w
  /\ exists l, log w' = (log w ++ l)%list /\ Forall doctor_lookup l.

(** An appointment without [dniDoctor]. *)
Definition cita_sin_doctor : value :=
  VObj [("id", VNum 9); ("dniPaciente", VStr "123");
        ("dia", VStr "Lunes"); ("hora", VStr "09:00:00")].

(** ** Basic facts

    Everything in this part is stated and proved for whatever Express
    reads in a URL. *)

Section Routed.
Context {routes : Routing}.

Lemma is_2xx_not_404 (code : Z) : is_2xx code = true -> (code =? 404) = false.
Proof. unfold is_2xx. intros H. apply andb_prop in H. lia. Qed.

Lemma issued_app (l1 l2 : list event) :
  issued (l1 ++ l2) = (issued l1 + issued l2)%nat.
Proof.
  induction l1 as [|e l1 IH]; [reflexivity|].
  destruct e; simpl; now rewrite IH.
Qed.

(** ** Book: the patient is not found *)

(** Unfold one handler down to the monad's primitives. *)
Ltac handler_steps :=
  unfold run, AgendarCita.post_agendar, AgendarCita.delete_cancelar,
    AgendarCita.get_dniPaciente, Revision.post_agendar,
    Revision.delete_cancelar, Revision.get_dniPaciente,
    try_catch, bind, return_, ret, throw, send, json, prop,
    axios_get, axios_post, axios_delete, axios, answer, start;
  cbn.

(** C3.  When the patient lookup says "not found" (a 404, or a 2xx with
    a falsy body), booking answers 404 "Paciente no encontrado", issues
    no request to the history service and none to the availability
    service, and leaves the availability table as it was. *)
Theorem agendar_paciente_no_encontrado
    (env : Env) (tabla : list Row) (body : agendar_body) :
  not_found (upstream env 0 (get_paciente body)) = true ->
  let w := run (AgendarCita.post_agendar env body) tabla in
  res w = Some (404, VStr "Paciente no encontrado")
  /\ requests_to POST CITA_SERVICE_URL (log w) = []
  /\ (forall m, requests_to m DISPONIBILIDAD_SERVICE_URL (log w) = [])
  /\ Disponibilidad w = tabla.
Proof.
  unfold get_paciente. intros H. handler_steps.
  destruct (upstream env 0 _) as [code d|]; cbn in H; [|discriminate].
  destruct (is_2xx code) eqn:E2; cbn in *.
  - rewrite (is_2xx_not_404 _ E2) in H. cbn in H.
    apply negb_true_iff in H. rewrite H. cbn.
    repeat split; intros; try reflexivity. now destruct m.
  - rewrite orb_false_r in H. apply Z.eqb_eq in H. subst code. cbn.
    repeat split; intros; try reflexivity. now destruct m.
Qed.

(** ** Book: not found, by status or by body *)

(** C10.  A directory answer [Http code d] counts as "not found" when
    [code] is 404 and also when [code] is a 2xx and [d] is falsy.  Given
    as the patient lookup it makes booking answer 404 "Paciente no
    encontrado"; given as the doctor lookup, after a patient that was
    found, 404 "Doctor no encontrado".  In both cases no appointment is
    posted to the history service. *)
Theorem agendar_not_found_by_status_or_body
    (env : Env) (tabla : list Row) (body : agendar_body)
    (code : Z) (d : value) :
  code = 404 \/ (is_2xx code = true /\ truthy d = false) ->
  let w := run (AgendarCita.post_agendar env body) tabla in
  (upstream env 0 (get_paciente body) = Http code d ->
   res w = Some (404, VStr "Paciente no encontrado")
   /\ requests_to POST CITA_SERVICE_URL (log w) = [])
  /\ (found (upstream env 0 (get_paciente body)) = true ->
      upstream env 1 (get_doctor body) = Http code d ->
      res w = Some (404, VStr "Doctor no encontrado")
      /\ requests_to POST CITA_SERVICE_URL (log w) = []).
Proof.
  unfold get_paciente, get_doctor. intros H. split.
  - intros Hp. handler_steps. rewrite Hp.
    destruct H as [->|[H2 Hd]].
    + cbn. split; reflexivity.
    + rewrite H2, Hd. cbn. split; reflexivity.
  - intros Hp Hdoc. handler_steps.
    destruct (upstream env 0 _) as [pc pd|]; cbn in Hp; [|discriminate].
    apply andb_prop in Hp. destruct Hp as [Hp2 Hpt].
    rewrite Hp2, Hpt. cbn. rewrite Hdoc.
    destruct H as [->|[H2 Hd]].
    + cbn. split; reflexivity.
    + rewrite H2, Hd. cbn. split; reflexivity.
Qed.

(** ** Book: a directory fails otherwise *)

(** The patient directory answers 503: booking answers 503. *)
Lemma agendar_503_passes_through :
  upstream_failure (upstream (con_fallo 0 (Http 503 (VStr "")))
                      0 (get_paciente lunes_9)) = true
  /\ res (run (AgendarCita.post_agendar (con_fallo 0 (Http 503 (VStr "")))
                 lunes_9) agenda_456)
     = Some (503, VStr "Error al verificar el Paciente").
Proof. split; reflexivity. Qed.

(** The patient directory answers 304: booking answers 304, and
    Express sends no body with it. *)
Example agendar_304_without_body :
  upstream_failure (upstream (con_fallo 0 (Http 304 (VStr "")))
                      0 (get_paciente lunes_9)) = true
  /\ res (run (AgendarCita.post_agendar (con_fallo 0 (Http 304 (VStr "")))
                 lunes_9) agenda_456)
     = Some (304, VStr "").
Proof. split; reflexivity. Qed.


(** ** The availability service, seen from the scheduling router *)

Lemma some_slot_rows (dia hora : string) (rs : list Row) (w : world) :
  some_slot dia hora (map DisponibilidadRouter.row_json rs) w
  = (Normal (existsb (at_time dia hora) rs), w).
Proof.
  induction rs as [|r rs IH]; [reflexivity|].
  cbn. unfold bind, prop, ret. cbn. unfold at_time at 1.
  destruct (String.eqb (col_dia r) dia); cbn.
  - destruct (String.eqb (col_hora r) hora); cbn; [reflexivity|exact IH].
  - exact IH.
Qed.

Lemma existsb_of_doctor (dni dia hora : string) (t : list Row) :
  existsb (at_time dia hora) (of_doctor dni t)
  = existsb (DisponibilidadRouter.is_slot dni dia hora) t.
Proof.
  induction t as [|r t IH]; [reflexivity|].
  unfold of_doctor in *. cbn. unfold DisponibilidadRouter.is_slot at 1.
  destruct (String.eqb (col_dni_doctor r) dni); cbn.
  - unfold at_time at 1. rewrite IH. reflexivity.
  - exact IH.
Qed.

Lemma route_param_plain (text : string) :
  plain text = true -> route_param text = Some text.
Proof. unfold route_param. now intros ->. Qed.

(** [GET /disponibilidad/:dni] either resolves with the rows of the
    doctor that Express reads in the URL or does not resolve; it never
    changes the table. *)
Lemma answer_get_disponibilidad (env : Env) (n : nat) (text : string)
    (t : list Row) :
  let a :=
    answer env n (mkRequest GET DISPONIBILIDAD_SERVICE_URL [text] None) t in
  snd a = t
  /\ (resolves (fst a) = true ->
      exists dni,
        route_param text = Some dni
        /\ fst a = Http 200 (VArr (map DisponibilidadRouter.row_json
                                     (of_doctor dni t))))
  /\ (resolves (fst a) = true <->
      network env n = Delivered /\ pool_ok env n = true
      /\ route_param text <> None).
Proof.
  unfold answer, DisponibilidadRouter.serve, DisponibilidadRouter.route. cbn.
  destruct (route_param text) as [dni|];
    destruct (network env n); destruct (pool_ok env n); cbn;
    repeat split; try reflexivity; try discriminate; try tauto;
    try (intros [? [? ?]]; congruence);
    try (intros _; exists dni; split; reflexivity).
Qed.

Lemma length_filter_split {A : Type} (f : A -> bool) (l : list A) :
  (List.length (filter f l) + List.length (filter (fun x => negb (f x)) l)
   = List.length l)%nat.
Proof.
  induction l as [|x l IH]; [reflexivity|].
  cbn. destruct (f x); cbn; lia.
Qed.

(** [DELETE /disponibilidad/:dni] with the slot of [body]: when the
    request is served and the database answers, every row of the slot is
    gone and nothing else; otherwise the table is as before. *)
Lemma answer_delete_disponibilidad (env : Env) (n : nat)
    (body : agendar_body) (t : list Row) :
  let a := answer env n (delete_disponibilidad body) t in
  (forall dni,
     network env n <> Dropped -> pool_ok env n = true ->
     route_param (dniDoctor body) = Some dni ->
     snd a = filter (not_slot dni (dia body) (hora body)) t)
  /\ (network env n = Dropped \/ pool_ok env n = false
      \/ route_param (dniDoctor body) = None -> snd a = t).
Proof.
  unfold answer, delete_disponibilidad, DisponibilidadRouter.serve,
    DisponibilidadRouter.route, not_slot. cbn.
  destruct (route_param (dniDoctor body)) as [dni|].
  - unfold DisponibilidadRouter.delete_dni, DisponibilidadRouter.pool_query,
      try_catch, bind, prop, return_, send, respond, ret. cbn.
    destruct (network env n); destruct (pool_ok env n); cbn;
      (split; [intros dni' ? ? [= <-]; try congruence
              | intros [?|[?|?]]; try congruence]);
      try reflexivity;
      destruct (List.length _ =? 0)%nat; reflexivity.
  - split; [intros; congruence|]. intros _. now destruct (network env n).
Qed.

Lemma answer_paciente (env : Env) (n : nat) (m : method) (p : list string)
    (d : option value) (t : list Row) :
  answer env n (mkRequest m PACIENTE_SERVICE_URL p d) t
  = (upstream env n (mkRequest m PACIENTE_SERVICE_URL p d), t).
Proof. reflexivity. Qed.

Lemma answer_doctor (env : Env) (n : nat) (m : method) (p : list string)
    (d : option value) (t : list Row) :
  answer env n (mkRequest m DOCTOR_SERVICE_URL p d) t
  = (upstream env n (mkRequest m DOCTOR_SERVICE_URL p d), t).
Proof. reflexivity. Qed.

Lemma answer_cita (env : Env) (n : nat) (m : method) (p : list string)
    (d : option value) (t : list Row) :
  answer env n (mkRequest m CITA_SERVICE_URL p d) t
  = (upstream env n (mkRequest m CITA_SERVICE_URL p d), t).
Proof. reflexivity. Qed.

(** Unfold one handler, keeping the answers of the services folded. *)
Ltac handler_calls :=
  unfold run, AgendarCita.post_agendar, AgendarCita.delete_cancelar,
    AgendarCita.get_dniPaciente, Revision.post_agendar,
    Revision.delete_cancelar, Revision.get_dniPaciente,
    try_catch, bind, return_, ret, throw, send, json, prop,
    axios_get, axios_post, axios_delete, axios, start;
  cbn; unfold respond; cbn;
  rewrite ?answer_paciente, ?answer_doctor, ?answer_cita.

(** A lookup that found something, taken apart. *)
Ltac found_reply H :=
  match type of H with
  | found ?a = true =>
      let code := fresh "code" in
      let d := fresh "d" in
      let H2 := fresh "H2xx" in
      let Ht := fresh "Htruthy" in
      destruct a as [code d|]; cbn in H; [|discriminate H];
      apply andb_prop in H; destruct H as [H2 Ht];
      rewrite ?H2, ?Ht; cbn
  end.

Lemma existsb_false_iff {A : Type} (f : A -> bool) (l : list A) :
  existsb f l = false <-> forall x, In x l -> f x = false.
Proof.
  induction l as [|y l IH]; cbn.
  - split; [intros _ x []|reflexivity].
  - rewrite orb_false_iff, IH. split.
    + intros [Hy Hl] x [<-|Hx]; auto.
    + intros H. split; [apply H; now left | intros x Hx; apply H; now right].
Qed.

(** A fetch that brought a list resolved, and the list is the rows of
    the doctor that Express read in the URL. *)
Lemma fetched_rows (env : Env) (n : nat) (text : string) (t : list Row)
    (slots : list value) :
  let a :=
    answer env n (mkRequest GET DISPONIBILIDAD_SERVICE_URL [text] None) t in
  fetched (fst a) = Some slots ->
  snd a = t
  /\ exists dni,
       route_param text = Some dni
       /\ fst a = Http 200 (VArr slots)
       /\ slots = map DisponibilidadRouter.row_json (of_doctor dni t).
Proof.
  cbv zeta. intros Hf.
  destruct (answer_get_disponibilidad env n text t) as [Hsame [Hrows _]].
  split; [exact Hsame|].
  destruct (fst (answer env n _ t)) as [code d|]; [|discriminate].
  cbn in Hf, Hrows. destruct d; try discriminate.
  destruct (is_2xx code); [|discriminate].
  injection Hf as ->. destruct (Hrows eq_refl) as [dni [Hdni E]].
  injection E as -> ->. exists dni. repeat split. exact Hdni.
Qed.

Lemma slot_listed_rows (dia hora : string) (rs : list Row) :
  slot_listed dia hora (map DisponibilidadRouter.row_json rs)
  = Some (existsb (at_time dia hora) rs).
Proof. unfold slot_listed. now rewrite some_slot_rows. Qed.

(** ** Book: the slot is not available *)


(** ** Book: the slot is available *)

Lemma slot_of_the_slot (body : agendar_body) : slot_of body (the_slot body) = true.
Proof.
  unfold slot_of, the_slot, DisponibilidadRouter.is_slot. cbn.
  now rewrite !String.eqb_refl.
Qed.

Lemma slot_of_eq (body : agendar_body) (r : Row) :
  slot_of body r = true -> r = the_slot body.
Proof.
  unfold slot_of, the_slot, DisponibilidadRouter.is_slot.
  destruct r as [d h n]. cbn. intros H.
  apply andb_prop in H. destruct H as [H Hh].
  apply andb_prop in H. destruct H as [Hn Hd].
  apply String.eqb_eq in Hn, Hd, Hh. now subst.
Qed.

(** The history service answers 500 to the creation: booking answers
    500 and the slot stays. *)
Lemma agendar_creation_rejected :
  let env := con_fallo 3 (Http 500 (VStr "")) in
  let w := run (AgendarCita.post_agendar env lunes_9) agenda_456 in
  found (upstream env 0 (get_paciente lunes_9)) = true
  /\ found (upstream env 1 (get_doctor lunes_9)) = true
  /\ resolves (fst (answer env 2 (get_disponibilidad lunes_9) agenda_456)) = true
  /\ In (the_slot lunes_9) agenda_456
  /\ res w = Some (500, VStr "Error al agendar la cita")
  /\ Disponibilidad w = agenda_456.
Proof. cbv zeta. repeat split; try reflexivity. now left. Qed.

(** The slot deletion is answered 500 by a failing database: the caller
    has its 201 and the slot stays. *)
Example agendar_deletion_fails :
  let w := run (AgendarCita.post_agendar (base_caida 4) lunes_9) agenda_456 in
  res w = Some (201, VStr "Cita agendada con éxito")
  /\ Disponibilidad w = agenda_456.
Proof. split; reflexivity. Qed.

(** The table holds the slot twice: both rows go. *)
Example agendar_duplicate_rows :
  let t := mkRow "Lunes" "09:00:00" "456" :: agenda_456 in
  let w := run (AgendarCita.post_agendar todo_bien lunes_9) t in
  res w = Some (201, VStr "Cita agendada con éxito")
  /\ Disponibilidad w
     = [mkRow "Martes" "10:00:00" "456"; mkRow "Lunes" "09:00:00" "789"].
Proof. split; reflexivity. Qed.

(** The scenario of a booking followed by a look at the doctor's
    slots: the booked slot is no longer listed. *)
Example agendar_then_get_disponibilidad :
  let w := run (AgendarCita.post_agendar todo_bien lunes_9) agenda_456 in
  res w = Some (201, VStr "Cita agendada con éxito")
  /\ res (run (DisponibilidadRouter.get_dni true "456") (Disponibilidad w))
     = Some (200, VArr [DisponibilidadRouter.row_json
                          (mkRow "Martes" "10:00:00" "456")]).
Proof. split; reflexivity. Qed.


(** ** Book: the response goes out before the slot is deleted *)

Lemma sent_201_not_passed (code : Z) (m b : value) (l : list event) :
  is_2xx code = false ->
  In (Sent 201 b) (l ++ [Sent (if code =? 0 then 500 else code) m])%list ->
  In (Sent 201 b) l.
Proof.
  intros H2 Hin. apply in_app_or in Hin. destruct Hin as [Hin|[Hin|[]]]; [exact Hin|].
  injection Hin as Hc _. destruct (code =? 0); [discriminate|].
  subst code. discriminate.
Qed.

(** Close a branch whose log holds no [Sent 201]. *)
Ltac no_201 H :=
  cbn in H;
  repeat match type of H with
         | _ \/ _ => destruct H as [H|H]
         | False => contradiction
         | Called _ _ = Sent _ _ => discriminate H
         | Sent _ _ = Sent _ _ => try discriminate H
         end.

(** C2.  In every run of booking that sends the 201 response, the log
    ends with that response followed by the request to delete the slot:
    the response goes out first, no deletion was asked for before it,
    and whatever the deletion request comes back with (a 2xx, an error
    status, nothing), the caller has received 201 "Cita agendada con
    éxito". *)
Theorem agendar_responde_antes_de_eliminar
    (env : Env) (tabla : list Row) (body : agendar_body) (b : value) :
  let w := run (AgendarCita.post_agendar env body) tabla in
  In (Sent 201 b) (log w) ->
  exists pre a,
    log w = (pre ++ [Sent 201 b; Called (delete_disponibilidad body) a])%list
    /\ requests_to DELETE DISPONIBILIDAD_SERVICE_URL pre = []
    /\ a = fst (answer env 4 (delete_disponibilidad body) tabla)
    /\ b = VStr "Cita agendada con éxito"
    /\ res w = Some (201, b).
Proof.
  unfold delete_disponibilidad. handler_calls.
  destruct (upstream env 0 _) as [pc pd|]; [|cbn; intros H; no_201 H].
  destruct (is_2xx pc) eqn:Ep; cbn.
  2:{ intros H. apply (sent_201_not_passed pc _ b [_] Ep) in H. no_201 H. }
  destruct (truthy pd); [|cbn; intros H; no_201 H]. cbn.
  rewrite answer_doctor.
  destruct (upstream env 1 _) as [dc dd|]; [|cbn; intros H; no_201 H].
  destruct (is_2xx dc) eqn:Ed; cbn.
  2:{ intros H. apply (sent_201_not_passed dc _ b [_; _] Ed) in H. no_201 H. }
  destruct (truthy dd); [|cbn; intros H; no_201 H]. cbn.
  destruct (answer_get_disponibilidad env 2 (dniDoctor body) tabla)
    as [Hsame [Hrows _]].
  destruct (answer env 2 _ tabla) as [a2 t2]. cbn in Hsame, Hrows. subst t2.
  destruct a2 as [ac ad|]; [|cbn; intros H; no_201 H].
  destruct (is_2xx ac) eqn:Ea; [|cbn; intros H; no_201 H].
  cbn in Hrows. destruct (Hrows Ea) as [dni [Hdni E]]. injection E as -> ->. cbn.
  rewrite some_slot_rows.
  destruct (existsb _ _); [|cbn; intros H; no_201 H]. cbn.
  rewrite answer_cita.
  destruct (upstream env 3 _) as [cc cd|]; [|cbn; intros H; no_201 H].
  destruct (is_2xx cc) eqn:Ec; [|cbn; intros H; no_201 H].
  cbn.
  destruct (answer env 4 _ tabla) as [a4 t4] eqn:E4.
  destruct a4 as [code4 d4|]; [destruct (is_2xx code4)|]; cbn;
    intros H; no_201 H; injection H as <-;
    eexists [_; _; _; _], _; (split; [reflexivity|]); cbn;
    repeat split; reflexivity.
Qed.

(** ** The availability router: listing the slots of a doctor *)

(** C9.  When [GET /disponibilidad/:dni] succeeds (a 2xx status), the
    status is 200 and the body is an array with one object per row of
    the doctor [dni] in the table, each carrying the [dia] and the
    [hora] of its row; the table is not changed. *)
Theorem get_dni_lists_the_slots
    (ok : bool) (dni : string) (t : list Row) (code : Z) (b : value) :
  let w := run (DisponibilidadRouter.get_dni ok dni) t in
  res w = Some (code, b) ->
  is_2xx code = true ->
  code = 200
  /\ Disponibilidad w = t
  /\ exists slots,
       b = VArr slots
       /\ List.length slots = List.length (of_doctor dni t)
       /\ (forall s, In s slots ->
           exists r, In r t /\ col_dni_doctor r = dni
                     /\ (exists props, s = VObj props)
                     /\ get_prop s "dia" = Some (VStr (col_dia r))
                     /\ get_prop s "hora" = Some (VStr (col_hora r)))
       /\ (forall r, In r t -> col_dni_doctor r = dni ->
           In (DisponibilidadRouter.row_json r) slots).
Proof.
  unfold run, DisponibilidadRouter.get_dni, DisponibilidadRouter.pool_query,
    try_catch, bind, json, send, start. cbn.
  destruct ok; cbn; intros Hres H2; injection Hres as <- <-;
    [|discriminate H2].
  split; [reflexivity|]. split; [reflexivity|].
  exists (map DisponibilidadRouter.row_json (of_doctor dni t)).
  split; [reflexivity|]. split; [apply length_map|]. split.
  - intros s Hs. apply in_map_iff in Hs. destruct Hs as [r [<- Hr]].
    unfold of_doctor in Hr. apply filter_In in Hr. destruct Hr as [Hin Hdni].
    exists r. split; [exact Hin|]. split; [now apply String.eqb_eq|].
    split; [eexists; reflexivity|]. split; reflexivity.
  - intros r Hin Hdni. apply in_map. unfold of_doctor. apply filter_In.
    split; [exact Hin|]. now apply String.eqb_eq.
Qed.

(** ** Cancel *)

Lemma truthy_get_prop (v : value) (k : string) :
  truthy v = true -> get_prop v k = Some (field v k).
Proof. unfold field. destruct v; cbn; intros H; try discriminate; reflexivity. Qed.

(** C6.  When the appointment is found and deleted and the request that
    puts its slot back does not resolve, cancelling answers 500 with a
    message that names the failed restoration; it posts nothing to the
    history service (the appointment is not created again) and has asked
    for the slot exactly once (no retry).  The first revision then runs
    into its last [send], which throws; the caller's response is the
    500 all the same. *)
Theorem cancelar_restauracion_falla
    (env : Env) (tabla : list Row) (idCita : string) (code : Z) (cita : value) :
  is_2xx code = true ->
  truthy cita = true ->
  resolves (fst (answer env 2 (post_disponibilidad cita) tabla)) = false ->
  (upstream env 0 (get_cita idCita) = Http code cita ->
   resolves (upstream env 1 (delete_cita idCita)) = true ->
   let w := run (AgendarCita.delete_cancelar env idCita) tabla in
   res w = Some (500, VStr
             ("Error restarurando la disponibilidad para el doctor "
              ++ to_text (field cita "dniDoctor")
              ++ " en " ++ to_text (field cita "dia")
              ++ " a las " ++ to_text (field cita "hora")))
   /\ requests_to POST CITA_SERVICE_URL (log w) = []
   /\ requests_to DELETE CITA_SERVICE_URL (log w) = [delete_cita idCita]
   /\ requests_to POST DISPONIBILIDAD_SERVICE_URL (log w)
      = [post_disponibilidad cita])
  /\ (upstream env 0 (get_cita' idCita) = Http code cita ->
      resolves (upstream env 1 (delete_cita' idCita)) = true ->
      let w := run (Revision.delete_cancelar env idCita) tabla in
      res w = Some (500, VStr
                ("Error al restaurar la disponibilidad del doctor "
                 ++ to_text (field cita "dniDoctor")))
      /\ requests_to POST CITA_SERVICE_URL (log w) = []
      /\ requests_to DELETE CITA_SERVICE_URL (log w) = [delete_cita' idCita]
      /\ requests_to POST DISPONIBILIDAD_SERVICE_URL (log w)
         = [post_disponibilidad cita]).
Proof.
  unfold get_cita, delete_cita, get_cita', delete_cita', post_disponibilidad.
  intros H2 Ht Hfail. split.
  - intros Hget Hdel. handler_calls. rewrite Hget, H2, Ht. cbn.
    rewrite answer_cita.
    destruct (upstream env 1 _) as [dc dd|]; cbn in Hdel; [|discriminate].
    rewrite Hdel. cbn. rewrite !(truthy_get_prop _ _ Ht). cbn.
    destruct (answer env 2 _ tabla) as [a t]. cbn in Hfail.
    destruct a as [ac ad|]; cbn in Hfail; [rewrite Hfail|]; cbn;
      repeat split; reflexivity.
  - intros Hget Hdel. handler_calls. rewrite Hget, H2, Ht. cbn.
    rewrite answer_cita.
    destruct (upstream env 1 _) as [dc dd|]; cbn in Hdel; [|discriminate].
    rewrite Hdel. cbn. rewrite !(truthy_get_prop _ _ Ht). cbn.
    destruct (answer env 2 _ tabla) as [a t]. cbn in Hfail.
    destruct a as [ac ad|]; cbn in Hfail; [rewrite Hfail|]; cbn;
      repeat split; reflexivity.
Qed.

(** An upstream body that is not a number is handed to [send] as a
    body. *)
Lemma data_or_not_a_number {A : Type} (d : value) (fallback : string)
    (x y : A) :
  (forall n, d <> VNum n) ->
  match Revision.data_or d fallback with
  | VNum _ => x
  | _ => y
  end = y.
Proof.
  intros Hnum. unfold Revision.data_or.
  destruct d as [| |[|]|n|s| |]; cbn; try reflexivity.
  - now destruct (Hnum n).
  - now destruct (String.eqb s "").
Qed.

(** Cancelling an appointment the history service does not know: what
    the two revisions do in general.  When the lookup resolves with a
    falsy body, both answer 404 "Cita no encontrada".  When the lookup is
    answered with status 404, the second revision passes the 404 on (the
    upstream body is passed on as well; a number is not a body for
    every version of Express, so numbers are left out), the first
    revision answers 500.
    In every case the appointment is not deleted, no slot is inserted
    and the table is as before. *)
Lemma cancelar_cita_desconocida
    (env : Env) (tabla : list Row) (idCita : string) (code : Z) (d : value) :
  let quiet (w : world) :=
    requests_to DELETE CITA_SERVICE_URL (log w) = []
    /\ requests_to POST DISPONIBILIDAD_SERVICE_URL (log w) = []
    /\ Disponibilidad w = tabla in
  (upstream env 0 (get_cita idCita) = Http code d ->
   let w := run (AgendarCita.delete_cancelar env idCita) tabla in
   (is_2xx code = true -> truthy d = false ->
    res w = Some (404, VStr "Cita no encontrada") /\ quiet w)
   /\ (code = 404 ->
       res w = Some (500, VStr "Error al cancelar la cita") /\ quiet w))
  /\ (upstream env 0 (get_cita' idCita) = Http code d ->
      let w := run (Revision.delete_cancelar env idCita) tabla in
      (is_2xx code = true -> truthy d = false ->
       res w = Some (404, VStr "Cita no encontrada") /\ quiet w)
      /\ (code = 404 -> (forall n, d <> VNum n) ->
          res w = Some (404, Revision.data_or d "Error al cancelar la cita")
          /\ quiet w)).
Proof.
  unfold get_cita, get_cita'. cbv zeta. split; intros Hget; split.
  - intros H2 Hd. handler_calls. rewrite Hget, H2, Hd. cbn.
    repeat split; reflexivity.
  - intros ->. handler_calls. rewrite Hget. cbn. repeat split; reflexivity.
  - intros H2 Hd. handler_calls. rewrite Hget, H2, Hd. cbn.
    repeat split; reflexivity.
  - intros -> Hnum. handler_calls. rewrite Hget. cbn.
    rewrite (data_or_not_a_number d _ _ _ Hnum). cbn.
    repeat split; reflexivity.
Qed.

(** C5, at the input where it fails.  [DELETE /cancelar/999] when the
    history service answers the lookup of appointment 999 with status
    404: the first revision answers 500 "Error al cancelar la cita",
    not 404; the second revision answers 404.  Neither deletes an
    appointment or inserts a slot. *)
Theorem cancelar_404_del_servicio :
  let env := historia (Http 404 (VStr "")) (fun _ => true) in
  let w := run (AgendarCita.delete_cancelar env "999") agenda_456 in
  let w' := run (Revision.delete_cancelar env "999") agenda_456 in
  upstream env 0 (get_cita "999") = Http 404 (VStr "")
  /\ res w = Some (500, VStr "Error al cancelar la cita")
  /\ log w = [Called (get_cita "999") (Http 404 (VStr ""));
              Sent 500 (VStr "Error al cancelar la cita")]
  /\ Disponibilidad w = agenda_456
  /\ res w' = Some (404, VStr "Error al cancelar la cita")
  /\ Disponibilidad w' = agenda_456.
Proof. cbv zeta. repeat split; reflexivity. Qed.

(** ** List *)

Lemma length_entries_from (env : Env) (enrich : value -> value -> value)
    (k : nat) (items : list value) :
  List.length (entries_from env enrich k items) = List.length items.
Proof.
  revert k. induction items as [|x rest IH]; intros k; cbn;
    [reflexivity | now rewrite IH].
Qed.

Lemma nth_error_entries_from (env : Env) (enrich : value -> value -> value)
    (k i : nat) (items : list value) (x : value) :
  nth_error items i = Some x ->
  nth_error (entries_from env enrich k items) i
  = Some (entry_of enrich x (upstream env (k + i) (get_doctor_of x))).
Proof.
  revert k i. induction items as [|y rest IH]; intros k i H.
  - destruct i; discriminate.
  - destruct i as [|i]; cbn in *.
    + injection H as ->. now rewrite Nat.add_0_r.
    + rewrite (IH (S k) i H). now rewrite Nat.add_succ_r.
Qed.

(** A callback that issues one doctor lookup and turns its answer into
    an entry, mapped over appointments none of which is [null]. *)
Lemma all_map_entries (env : Env) (enrich : value -> value -> value)
    (callback : value -> M value) :
  (forall x w, nullish x = false ->
     callback x w
     = (Normal (entry_of enrich x
                  (upstream env (issued (log w)) (get_doctor_of x))),
        add_called w (get_doctor_of x)
          (upstream env (issued (log w)) (get_doctor_of x)))) ->
  forall items w,
    Forall (fun x => nullish x = false) items ->
    all_map callback items w
    = (Normal (entries_from env enrich (issued (log w)) items),
       {| res := res w; Disponibilidad := Disponibilidad w;
          log := log w ++ calls_from env (issued (log w)) items |}).
Proof.
  intros Hcb items. induction items as [|x rest IH]; intros w Hall.
  - unfold all_map, ret. cbn. rewrite app_nil_r. now destruct w.
  - inversion Hall as [|? ? Hx Hrest]; subst.
    unfold all_map; fold all_map. rewrite (Hcb x w Hx), (IH _ Hrest).
    unfold add_called. cbn. rewrite issued_app. cbn.
    rewrite Nat.add_1_r, <- app_assoc. reflexivity.
Qed.

Lemma con_doctor_entry (env : Env) (x : value) (w : world) :
  nullish x = false ->
  AgendarCita.con_doctor env x w
  = (Normal (entry_of enriched x
               (upstream env (issued (log w)) (get_doctor_of x))),
     add_called w (get_doctor_of x)
       (upstream env (issued (log w)) (get_doctor_of x))).
Proof.
  intros Hx. unfold AgendarCita.con_doctor, get_doctor_of, entry_of, enriched,
    doctor_fields, marked, add_called, field,
    try_catch, bind, prop, ret, throw, axios_get, axios.
  destruct x; try discriminate Hx; cbn; rewrite answer_doctor;
    (destruct (upstream env _ _) as [code d|]; [|reflexivity]);
    cbn; (destruct (is_2xx code); [|reflexivity]);
    destruct d; reflexivity.
Qed.

Lemma con_doctor_entry' (env : Env) (x : value) (w : world) :
  nullish x = false ->
  Revision.con_doctor env x w
  = (Normal (entry_of enriched' x
               (upstream env (issued (log w)) (get_doctor_of x))),
     add_called w (get_doctor_of x)
       (upstream env (issued (log w)) (get_doctor_of x))).
Proof.
  intros Hx. unfold Revision.con_doctor, get_doctor_of, entry_of, enriched',
    doctor_fields, marked, add_called, field,
    try_catch, bind, prop, ret, throw, axios_get, axios.
  destruct x; try discriminate Hx; cbn; rewrite answer_doctor;
    (destruct (upstream env _ _) as [code d|]; [|reflexivity]);
    cbn; (destruct (is_2xx code); [|reflexivity]);
    destruct d; reflexivity.
Qed.

Lemma lookup_set_prop (k : string) (v : value) (props : list (string * value)) :
  lookup k (set_prop k v props) = v.
Proof.
  induction props as [|[k' v'] rest IH]; cbn.
  - now rewrite String.eqb_refl.
  - destruct (String.eqb k k') eqn:E; cbn.
    + now rewrite String.eqb_refl.
    + now rewrite E.
Qed.

Lemma truthy_length (items : list value) :
  truthy (VNum (Z.of_nat (List.length items)))
  = match items with [] => false | _ => true end.
Proof. destruct items; reflexivity. Qed.

(** The response of the list handler, for either revision's callback. *)
Lemma listar_entries (env : Env) (enrich : value -> value -> value)
    (callback : value -> M value) (citas : list value) (w0 : world) :
  (forall x w, nullish x = false ->
     callback x w
     = (Normal (entry_of enrich x
                  (upstream env (issued (log w)) (get_doctor_of x))),
        add_called w (get_doctor_of x)
          (upstream env (issued (log w)) (get_doctor_of x)))) ->
  Forall (fun x => nullish x = false) citas ->
  res w0 = None -> issued (log w0) = 1%nat ->
  exists w1,
    bind (all_map callback citas) (fun l => json (VArr l)) w0 = (Normal tt, w1)
    /\ res w1 = Some (200, VArr (entries_from env enrich 1 citas)).
Proof.
  intros Hcb Hall Hres Hk. unfold bind.
  rewrite (all_map_entries env enrich callback Hcb citas w0 Hall).
  unfold json, send. cbn. rewrite Hres, Hk. eexists. split; reflexivity.
Qed.

(** C8.  Let the history service answer the list request with an array
    [citas].  If it is empty, listing answers 404.  If it holds N
    appointments (values other than [null]), listing answers 200 with N
    entries, the i-th entry made from the i-th appointment and from the
    answer to its doctor lookup, which is the call issued at time i+1:
    when that lookup gave a document, the entry carries [fecha], [hora]
    (and [id] in the second revision) and a [doctor] with the
    document's [nombres], [apellidos] and [especialidad]; when it did
    not (it did not resolve, or resolved with [null]), the entry is the
    appointment with the error text as its [doctor]; the other entries
    are not affected. *)
Theorem listar_citas
    (env : Env) (tabla : list Row) (dni : string) (code : Z)
    (citas : list value) :
  upstream env 0 (get_citas dni) = Http code (VArr citas) ->
  is_2xx code = true ->
  let w := run (AgendarCita.get_dniPaciente env dni) tabla in
  let w' := run (Revision.get_dniPaciente env dni) tabla in
  (citas = [] ->
   res w = Some (404, VStr
             ("No se encontraron citas para el paciente con DNI " ++ dni))
   /\ res w' = res w)
  /\ (citas <> [] ->
      Forall (fun cita => nullish cita = false) citas ->
      exists entries entries',
        res w = Some (200, VArr entries)
        /\ res w' = Some (200, VArr entries')
        /\ List.length entries = List.length citas
        /\ List.length entries' = List.length citas
        /\ forall i cita,
             nth_error citas i = Some cita ->
             exists e e',
               nth_error entries i = Some e
               /\ nth_error entries' i = Some e'
               /\ (forall c d,
                     upstream env (S i) (get_doctor_of cita) = Http c d ->
                     doctor_fetched (Http c d) = true ->
                     e = enriched cita d /\ e' = enriched' cita d)
               /\ (doctor_fetched (upstream env (S i) (get_doctor_of cita))
                   = false ->
                   e = marked cita /\ e' = marked cita
                   /\ get_prop e "doctor" = Some (VStr doctor_error))
               /\ (resolves (upstream env (S i) (get_doctor_of cita))
                   = false ->
                   doctor_fetched (upstream env (S i) (get_doctor_of cita))
                   = false)).
Proof.
  unfold get_citas. intros Hget H2. cbv zeta. split.
  - intros ->. handler_calls. rewrite Hget, H2. cbn. split; reflexivity.
  - intros Hne Hall.
    exists (entries_from env enriched 1 citas),
           (entries_from env enriched' 1 citas).
    assert (Hlen : truthy (VNum (Z.of_nat (List.length citas))) = true)
      by (rewrite truthy_length; destruct citas; congruence).
    split; [|split].
    + unfold run, AgendarCita.get_dniPaciente, try_catch.
      unfold bind at 1. unfold axios_get, axios, start. cbn.
      rewrite answer_cita, Hget, H2. cbn.
      unfold truthy in Hlen. rewrite Hlen. cbn.
      destruct (listar_entries env enriched (AgendarCita.con_doctor env) citas
                  {| res := None; Disponibilidad := tabla;
                     log := [Called (mkRequest GET CITA_SERVICE_URL
                                       ["paciente"; dni] None)
                               (Http code (VArr citas))] |})
        as [w1 [Hrun Hres]];
        [intros; now apply con_doctor_entry | exact Hall | reflexivity | reflexivity |].
      rewrite Hrun. exact Hres.
    + unfold run, Revision.get_dniPaciente, try_catch.
      unfold bind at 1. unfold axios_get, axios, start. cbn.
      rewrite answer_cita, Hget, H2. cbn.
      unfold truthy in Hlen. rewrite Hlen. cbn.
      destruct (listar_entries env enriched' (Revision.con_doctor env) citas
                  {| res := None; Disponibilidad := tabla;
                     log := [Called (mkRequest GET CITA_SERVICE_URL
                                       ["paciente"; dni] None)
                               (Http code (VArr citas))] |})
        as [w1 [Hrun Hres]];
        [intros; now apply con_doctor_entry' | exact Hall | reflexivity | reflexivity |].
      rewrite Hrun. exact Hres.
    + split; [apply length_entries_from|]. split; [apply length_entries_from|].
      intros i cita Hi.
      exists (entry_of enriched cita (upstream env (S i) (get_doctor_of cita))),
             (entry_of enriched' cita (upstream env (S i) (get_doctor_of cita))).
      split; [exact (nth_error_entries_from env enriched 1 i citas cita Hi)|].
      split; [exact (nth_error_entries_from env enriched' 1 i citas cita Hi)|].
      split.
      * intros c d -> Hf. cbn in Hf. unfold entry_of. rewrite Hf.
        split; reflexivity.
      * split.
        -- intros Hr. unfold entry_of.
           destruct (upstream env (S i) _) as [c d|]; cbn in Hr;
             [rewrite Hr; cbn|];
             (split; [reflexivity|]); (split; [reflexivity|]);
             unfold marked; cbn; now rewrite lookup_set_prop.
        -- destruct (upstream env (S i) _) as [c d|]; cbn;
             [intros ->|]; reflexivity.
Qed.

Example listar_dos_citas :
  res (run (AgendarCita.get_dniPaciente listado "123") [])
  = Some (200, VArr [enriched cita_7 documento; marked cita_8])
  /\ res (run (Revision.get_dniPaciente listado "123") [])
     = Some (200, VArr [enriched' cita_7 documento; marked cita_8])
  /\ marked cita_8
     = VObj [("id", VNum 8); ("dniPaciente", VStr "123");
             ("dniDoctor", VStr "789"); ("dia", VStr "Martes");
             ("hora", VStr "10:00:00");
             ("doctor", VStr "Error al obtener los datos del doctor")].
Proof. repeat split; reflexivity. Qed.

(** ** The availability router: inserting and deleting slots *)

Lemma filter_all {A : Type} (f : A -> bool) (l : list A) :
  (forall x, In x l -> f x = true) -> filter f l = l.
Proof.
  induction l as [|x l IH]; intros H; [reflexivity|].
  cbn. rewrite (H x (or_introl eq_refl)). f_equal. apply IH.
  intros y Hy. apply H. now right.
Qed.

Lemma length_filter_zero {A : Type} (f : A -> bool) (l : list A) :
  (List.length (filter f l) =? 0)%nat = negb (existsb f l).
Proof.
  induction l as [|x l IH]; [reflexivity|].
  cbn. destruct (f x); cbn; [reflexivity|exact IH].
Qed.

Lemma is_slot_new_row (dni dia hora : string) :
  DisponibilidadRouter.is_slot dni dia hora (mkRow dia hora dni) = true.
Proof.
  unfold DisponibilidadRouter.is_slot. cbn. now rewrite !String.eqb_refl.
Qed.

(** Unfold a handler of the availability router. *)
Ltac router_steps :=
  unfold run, DisponibilidadRouter.get_dni, DisponibilidadRouter.post_dni,
    DisponibilidadRouter.delete_dni, DisponibilidadRouter.pool_query,
    DisponibilidadRouter.with_table,
    try_catch, bind, return_, ret, throw, send, json, prop, start;
  cbn.

(** X1.  [POST /:dni] with a body whose [dia] and [hora] are text, on a
    database that answers: 200, the row (dia, hora, dni) is added at the
    end of the table and nothing else changes; a [GET /:dni] that
    follows lists the new slot together with every slot the doctor had
    before. *)
Theorem post_dni_then_get_dni
    (dni dia hora : string) (body : value) (t : list Row) :
  slot_body body dia hora ->
  let w := run (DisponibilidadRouter.post_dni true dni body) t in
  res w = Some (200, VStr "Disponibilidad agregada con éxito")
  /\ Disponibilidad w = (t ++ [mkRow dia hora dni])%list
  /\ exists slots,
       res (run (DisponibilidadRouter.get_dni true dni) (Disponibilidad w))
       = Some (200, VArr slots)
       /\ In (DisponibilidadRouter.row_json (mkRow dia hora dni)) slots
       /\ (forall r, In r t -> col_dni_doctor r = dni ->
           In (DisponibilidadRouter.row_json r) slots).
Proof.
  intros [Hd Hh]. router_steps. rewrite Hd, Hh. cbn.
  split; [reflexivity|]. split; [reflexivity|].
  eexists. split; [reflexivity|].
  split.
  - apply in_map, filter_In.
    split; [apply in_or_app; right; now left | cbn; apply String.eqb_refl].
  - intros r Hin Hdni. apply in_map, filter_In.
    split; [apply in_or_app; now left | now apply String.eqb_eq].
Qed.

(** X2.  [DELETE /:dni] for a slot the table does not hold: 404
    "Disponibilidad no encontrada", and the table is as before. *)
Theorem delete_dni_slot_absent
    (dni dia hora : string) (body : value) (t : list Row) :
  slot_body body dia hora ->
  (forall r, In r t -> DisponibilidadRouter.is_slot dni dia hora r = false) ->
  let w := run (DisponibilidadRouter.delete_dni true dni body) t in
  res w = Some (404, VStr "Disponibilidad no encontrada")
  /\ Disponibilidad w = t.
Proof.
  intros [Hd Hh] Hno. router_steps. rewrite Hd, Hh. cbn.
  rewrite length_filter_zero.
  assert (Hex : existsb (DisponibilidadRouter.is_slot dni dia hora) t = false)
    by (apply existsb_false_iff; exact Hno).
  rewrite Hex. cbn. split; [reflexivity|].
  apply filter_all. intros r Hr. now rewrite (Hno r Hr).
Qed.

(** X3.  [DELETE /:dni] for a slot the table holds: 200, every row of
    that (dni, dia, hora) is gone, however many there were, and every
    other row stays, in its order. *)
Theorem delete_dni_slot_present
    (dni dia hora : string) (body : value) (t : list Row) :
  slot_body body dia hora ->
  (exists r, In r t /\ DisponibilidadRouter.is_slot dni dia hora r = true) ->
  let w := run (DisponibilidadRouter.delete_dni true dni body) t in
  res w = Some (200, VStr "Disponibilidad eliminada con éxito")
  /\ Disponibilidad w = filter (not_slot dni dia hora) t
  /\ (forall r, In r (Disponibilidad w) <->
                In r t /\ DisponibilidadRouter.is_slot dni dia hora r = false)
  /\ (List.length (Disponibilidad w)
      + List.length (filter (DisponibilidadRouter.is_slot dni dia hora) t)
      = List.length t)%nat.
Proof.
  intros [Hd Hh] Hex. router_steps. rewrite Hd, Hh. cbn.
  rewrite length_filter_zero.
  assert (Hb : existsb (DisponibilidadRouter.is_slot dni dia hora) t = true)
    by (apply existsb_exists; exact Hex).
  rewrite Hb. cbn. split; [reflexivity|]. split; [reflexivity|]. split.
  - intros r. rewrite filter_In. unfold not_slot.
    now rewrite negb_true_iff.
  - pose proof (length_filter_split
                  (DisponibilidadRouter.is_slot dni dia hora) t) as L.
    unfold not_slot. lia.
Qed.

(** X4.  Inserting a slot and then deleting it: the deletion answers
    200 and takes with it every row of that slot, the one just inserted
    and any the table held before.  When the table did not hold the
    slot, the two requests together leave it exactly as it was. *)
Theorem post_dni_then_delete_dni
    (dni dia hora : string) (body : value) (t : list Row) :
  slot_body body dia hora ->
  let w1 := run (DisponibilidadRouter.post_dni true dni body) t in
  let w2 := run (DisponibilidadRouter.delete_dni true dni body)
              (Disponibilidad w1) in
  res w2 = Some (200, VStr "Disponibilidad eliminada con éxito")
  /\ Disponibilidad w2 = filter (not_slot dni dia hora) t
  /\ ((forall r, In r t -> DisponibilidadRouter.is_slot dni dia hora r = false) ->
      Disponibilidad w2 = t).
Proof.
  intros [Hd Hh]. router_steps. rewrite Hd, Hh. cbn.
  rewrite length_filter_zero, existsb_app. cbn.
  rewrite is_slot_new_row, orb_true_r. cbn.
  rewrite filter_app. cbn. rewrite is_slot_new_row. cbn. rewrite app_nil_r.
  split; [reflexivity|]. split; [reflexivity|].
  intros Hno. apply filter_all. intros r Hr. now rewrite (Hno r Hr).
Qed.

(** X5.  When the database does not answer, each of the three routes
    answers 500 with its own message and the table is as before. *)
Theorem disponibilidad_database_down
    (dni : string) (body : value) (t : list Row) :
  nullish body = false ->
  let g := run (DisponibilidadRouter.get_dni false dni) t in
  let p := run (DisponibilidadRouter.post_dni false dni body) t in
  let d := run (DisponibilidadRouter.delete_dni false dni body) t in
  (res g = Some (500, VStr "Error al obtener la disponibilidad del doctor")
   /\ Disponibilidad g = t)
  /\ (res p = Some (500, VStr "Error al agregar la disponibilidad")
      /\ Disponibilidad p = t)
  /\ (res d = Some (500, VStr "Error al eliminar la disponibilidad")
      /\ Disponibilidad d = t).
Proof.
  intros Hb. router_steps.
  destruct body; try discriminate Hb; cbn; repeat split; reflexivity.
Qed.

(** X6.  [DELETE /:dni] with a body that lacks [dia] or [hora] (the
    other field being absent or a text, a number or a boolean): the
    parameter is bound as NULL, no row compares equal to it, the answer
    is 404 and the table is as before. *)
Theorem delete_dni_missing_field
    (dni : string) (body : value) (t : list Row) :
  nullish body = false ->
  primitive (field body "dia") = true ->
  primitive (field body "hora") = true ->
  nullish (field body "dia") = true \/ nullish (field body "hora") = true ->
  let w := run (DisponibilidadRouter.delete_dni true dni body) t in
  res w = Some (404, VStr "Disponibilidad no encontrada")
  /\ Disponibilidad w = t.
Proof.
  intros Hb Hpd Hph Hnull. router_steps.
  assert (Hd : get_prop body "dia" = Some (field body "dia"))
    by (unfold field; destruct body; try discriminate Hb; reflexivity).
  assert (Hh : get_prop body "hora" = Some (field body "hora"))
    by (unfold field; destruct body; try discriminate Hb; reflexivity).
  rewrite Hd, Hh. cbn.
  destruct (field body "dia"), (field body "hora");
    try discriminate Hpd; try discriminate Hph;
    cbn in Hnull; try (destruct Hnull; discriminate);
    cbn; split; reflexivity.
Qed.

(** ** Book: every run *)

Lemma some_slot_state (dia hora : string) (items : list value) (w : world) :
  snd (some_slot dia hora items w) = w
  /\ fst (some_slot dia hora items w) <> Returned.
Proof.
  induction items as [|d rest IH]; [split; [reflexivity|discriminate]|].
  cbn. unfold bind, prop, throw, ret.
  destruct (get_prop d "dia") as [x|]; cbn; [|split; [reflexivity|discriminate]].
  destruct (strict_eq x (VStr dia)); [|exact IH].
  destruct (get_prop d "hora") as [y|]; cbn; [|split; [reflexivity|discriminate]].
  destruct (strict_eq y (VStr hora)); [split; [reflexivity|discriminate]|exact IH].
Qed.

Lemma passed_not_201 (code : Z) :
  is_2xx code = false -> (if code =? 0 then 500 else code) <> 201.
Proof.
  intros H. destruct (code =? 0); [discriminate|]. intros ->. discriminate.
Qed.

(** Close a branch of booking that ended without the 201. *)
Ltac booking_stopped :=
  solve [
  right; eexists _, _; cbn;
  repeat match goal with
         | |- _ /\ _ => split
         | |- _ = _ => reflexivity
         | |- resolves _ = false => cbn; assumption
         | |- _ \/ _ => (left; reflexivity) || (right; reflexivity)
         | |- (if _ =? 0 then 500 else _) <> 201 => now apply passed_not_201
         | |- _ <> _ => discriminate
         | |- forall _, _ => intros
         | H : _ \/ _ |- _ => destruct H
         | H : False |- _ => contradiction
         | H : Called _ _ = Called _ _ |- _ => injection H as <- <-
         | H : Called _ _ = Sent _ _ |- _ => discriminate H
         | H : Sent _ _ = Called _ _ |- _ => discriminate H
         | H : meth _ = POST |- _ => cbn in H; try discriminate H
         | H : In _ _ |- _ => cbn in H
         end ].

(** What a run of booking comes to: either the 201 went out, after a
    creation that resolved and before the one deletion request, or
    another status went out and nothing was created or deleted. *)
Lemma agendar_outcome (env : Env) (tabla : list Row) (body : agendar_body) :
  let r := AgendarCita.post_agendar env body (start tabla) in
  ((exists dni,
      route_param (dniDoctor body) = Some dni
      /\ existsb (DisponibilidadRouter.is_slot dni (dia body) (hora body))
           tabla = true)
   /\ resolves (upstream env 3 (post_cita body)) = true
   /\ res (snd r) = Some (201, VStr "Cita agendada con éxito")
   /\ Disponibilidad (snd r)
      = snd (answer env 4 (delete_disponibilidad body) tabla)
   /\ requests_to POST CITA_SERVICE_URL (log (snd r)) = [post_cita body]
   /\ requests_to DELETE DISPONIBILIDAD_SERVICE_URL (log (snd r))
      = [delete_disponibilidad body]
   /\ fst r
      = if resolves (fst (answer env 4 (delete_disponibilidad body) tabla))
        then Normal tt else Thrown ERR_HTTP_HEADERS_SENT)
  \/ (exists s m,
        res (snd r) = Some (s, m)
        /\ s <> 201
        /\ Disponibilidad (snd r) = tabla
        /\ requests_to DELETE DISPONIBILIDAD_SERVICE_URL (log (snd r)) = []
        /\ (forall q a, In (Called q a) (log (snd r)) ->
            meth q = POST -> resolves a = false)
        /\ (fst r = Returned \/ fst r = Normal tt)).
Proof.
  unfold post_cita, citaData, delete_disponibilidad, slot_of. handler_calls.
  destruct (upstream env 0 _) as [pc pd|]; [|booking_stopped].
  destruct (is_2xx pc) eqn:Ep; cbn; [|booking_stopped].
  destruct (truthy pd); [|booking_stopped]. cbn.
  rewrite answer_doctor.
  destruct (upstream env 1 _) as [dc dd|]; [|booking_stopped].
  destruct (is_2xx dc) eqn:Ed; cbn; [|booking_stopped].
  destruct (truthy dd); [|booking_stopped]. cbn.
  destruct (answer_get_disponibilidad env 2 (dniDoctor body) tabla)
    as [Hsame [Hrows _]].
  destruct (answer env 2 _ tabla) as [a2 t2]. cbn in Hsame, Hrows. subst t2.
  destruct a2 as [ac ad|]; [|booking_stopped].
  destruct (is_2xx ac) eqn:Ea; cbn; [|booking_stopped].
  cbn in Hrows. destruct (Hrows Ea) as [dni [Hdni E]]. injection E as -> ->. cbn.
  rewrite some_slot_rows, existsb_of_doctor.
  destruct (existsb _ tabla) eqn:Hfree; cbn; [|booking_stopped].
  rewrite answer_cita.
  destruct (upstream env 3 _) as [cc cd|]; [|booking_stopped].
  cbn. destruct (is_2xx cc) eqn:Ec; cbn; [|booking_stopped].
  left. split; [exists dni; now split|].
  destruct (answer env 4 _ tabla) as [a4 t4].
  destruct a4 as [c4 d4|]; [cbn; destruct (is_2xx c4)|]; cbn;
    repeat split; reflexivity.
Qed.

(** X7.  A booking that was answered 201 has had the creation of its
    appointment resolved, and that was the only creation it asked for.
    A booking that was answered with any other status has left the
    availability table as it was, has asked for no slot deletion, and
    no POST of the run resolved: nothing was created. *)
Theorem agendar_201_or_untouched
    (env : Env) (tabla : list Row) (body : agendar_body)
    (s : Z) (m : value) :
  let w := run (AgendarCita.post_agendar env body) tabla in
  res w = Some (s, m) ->
  (s = 201 ->
   resolves (upstream env 3 (post_cita body)) = true
   /\ requests_to POST CITA_SERVICE_URL (log w) = [post_cita body])
  /\ (s <> 201 ->
      Disponibilidad w = tabla
      /\ requests_to DELETE DISPONIBILIDAD_SERVICE_URL (log w) = []
      /\ (forall q a, In (Called q a) (log w) ->
          meth q = POST -> resolves a = false)).
Proof.
  cbv zeta. unfold run.
  destruct (agendar_outcome env tabla body)
    as [[_ [Hc [Hres [_ [Hpost _]]]]]
       | [s' [m' [Hres [Hs [Ht [Hdel [Hno _]]]]]]]];
    rewrite Hres; intros [= <- <-].
  - split; [intros _; now split|]. intros Hne. now contradiction Hne.
  - split; [intros E; now contradiction Hs|]. intros _. now repeat split.
Qed.

(** X8.  The booking handler ends by throwing only in one way: the 201
    has gone out, the slot deletion did not resolve, and the [catch]
    block's attempt to send a 500 throws ERR_HTTP_HEADERS_SENT, which
    nothing handles.  Conversely every run that answered 201 and whose
    deletion did not resolve ends that way. *)
Theorem agendar_throws_after_201
    (env : Env) (tabla : list Row) (body : agendar_body) :
  let r := AgendarCita.post_agendar env body (start tabla) in
  let deleted :=
    resolves (fst (answer env 4 (delete_disponibilidad body) tabla)) in
  (forall e, fst r = Thrown e ->
     e = ERR_HTTP_HEADERS_SENT
     /\ res (snd r) = Some (201, VStr "Cita agendada con éxito")
     /\ deleted = false)
  /\ (forall m, res (snd r) = Some (201, m) -> deleted = false ->
      fst r = Thrown ERR_HTTP_HEADERS_SENT).
Proof.
  cbv zeta.
  destruct (agendar_outcome env tabla body)
    as [[_ [Hc [Hres [_ [_ [_ Hfst]]]]]] | [s [m [Hres [Hs [_ [_ [_ Hfst]]]]]]]].
  - split.
    + intros e He. rewrite Hfst in He.
      destruct (resolves (fst (answer env 4 (delete_disponibilidad body) tabla)));
        [discriminate He|].
      injection He as <-. now repeat split.
    + intros m _ Hd. now rewrite Hfst, Hd.
  - split.
    + intros e He. destruct Hfst as [Hf|Hf]; rewrite Hf in He; discriminate.
    + intros m' Hm. rewrite Hres in Hm. injection Hm as -> _.
      now contradiction Hs.
Qed.

(** ** Cancel: the other paths *)

Lemma answer_post_disponibilidad (env : Env) (n : nat)
    (text dni dia hora : string) (t : list Row) :
  network env n = Delivered -> pool_ok env n = true ->
  route_param text = Some dni ->
  answer env n
    (mkRequest POST DISPONIBILIDAD_SERVICE_URL [text]
       (Some (VObj [("dia", VStr dia); ("hora", VStr hora)]))) t
  = (Http 200 (VStr "Disponibilidad agregada con éxito"),
     (t ++ [mkRow dia hora dni])%list).
Proof.
  intros Hn Hp Hdni.
  unfold answer, DisponibilidadRouter.serve, DisponibilidadRouter.route. cbn.
  rewrite Hn, Hp, Hdni. reflexivity.
Qed.

Lemma cita_slot_object (cita : value) (dni dia hora : string) :
  cita_slot cita dni dia hora ->
  truthy cita = true
  /\ field cita "dniDoctor" = VStr dni
  /\ field cita "dia" = VStr dia
  /\ field cita "hora" = VStr hora.
Proof.
  unfold cita_slot, field. intros [H1 [H2 H3]]. rewrite H1, H2, H3.
  destruct cita; cbn in *; try discriminate; repeat split; reflexivity.
Qed.

(** X9.  Cancelling an appointment that is found and whose deletion
    resolves, the identifier of its doctor being plain (at most 64
    letters, digits, [-] and [_]), when the request for the slot
    reaches the availability router, its database answers and the
    response comes back: both revisions answer 200, have asked the
    history service for exactly one deletion, and the table has gained
    exactly the row (dia, hora, dniDoctor) of the appointment, at its
    end. *)
Theorem cancelar_restaura_la_disponibilidad
    (env : Env) (tabla : list Row) (idCita : string) (code : Z)
    (cita : value) (dni dia hora : string) :
  is_2xx code = true ->
  cita_slot cita dni dia hora ->
  plain dni = true ->
  network env 2 = Delivered ->
  pool_ok env 2 = true ->
  (upstream env 0 (get_cita idCita) = Http code cita ->
   resolves (upstream env 1 (delete_cita idCita)) = true ->
   let w := run (AgendarCita.delete_cancelar env idCita) tabla in
   res w = Some (200, VStr
             "Cita cancelada y disponibilidad restaurada con éxito")
   /\ Disponibilidad w = (tabla ++ [mkRow dia hora dni])%list
   /\ requests_to DELETE CITA_SERVICE_URL (log w) = [delete_cita idCita]
   /\ requests_to POST DISPONIBILIDAD_SERVICE_URL (log w)
      = [post_disponibilidad cita])
  /\ (upstream env 0 (get_cita' idCita) = Http code cita ->
      resolves (upstream env 1 (delete_cita' idCita)) = true ->
      let w := run (Revision.delete_cancelar env idCita) tabla in
      res w = Some (200, VStr
                "Cita cancelada y disponibilidad restaurada con éxito")
      /\ Disponibilidad w = (tabla ++ [mkRow dia hora dni])%list
      /\ requests_to DELETE CITA_SERVICE_URL (log w) = [delete_cita' idCita]
      /\ requests_to POST DISPONIBILIDAD_SERVICE_URL (log w)
         = [post_disponibilidad cita]).
Proof.
  unfold get_cita, delete_cita, get_cita', delete_cita', post_disponibilidad.
  intros H2 Hc Hdni Hn Hp.
  apply route_param_plain in Hdni.
  destruct (cita_slot_object _ _ _ _ Hc) as [Ht [Fd [Fdia Fhora]]].
  split; intros Hget Hdel; handler_calls; rewrite Hget, H2, Ht; cbn;
    rewrite answer_cita;
    (destruct (upstream env 1 _) as [dc dd|]; cbn in Hdel; [|discriminate]);
    rewrite Hdel; cbn; rewrite !(truthy_get_prop _ _ Ht);
    rewrite Fd, Fdia, Fhora; cbn;
    rewrite (answer_post_disponibilidad env 2 dni dni dia hora tabla Hn Hp Hdni);
    cbn; repeat split; reflexivity.
Qed.

(** The body of a reply that is not a number is handed on as a body. *)
Ltac passed_body :=
  match goal with
  | H : not_a_number (Http ?c ?d) |- context [Revision.data_or ?d ?f] =>
      rewrite (data_or_not_a_number d f _ _
                 (fun n E => H c n (f_equal (Http c) E)))
  end.


(** Close one leaf of a run of cancelling. *)
Ltac cancel_leaf :=
  cbn;
  try passed_body;
  try match goal with
      | |- context [Revision.data_or ?d ?f] =>
          destruct (Revision.data_or d f)
      end;
  cbn;
  repeat match goal with
         | |- _ /\ _ => split
         | |- _ <> _ => discriminate
         | |- forall _, _ => intros
         | |- _ \/ _ =>
             (left; split; reflexivity)
             || (right; cbn;
                 repeat match goal with
                        | H : _ = true |- _ => rewrite H
                        end;
                 split; reflexivity)
         | |- _ = _ => reflexivity
         | H : Thrown _ = Thrown _ |- _ => injection H as <-
         | H : _ = Thrown _ |- _ => discriminate H
         | |- exists _, _ => eexists
         end.

(** Every path of a cancellation, one leaf each. *)
Ltac cancel_paths env :=
  handler_calls;
  (destruct (upstream env 0 _) as [c0 cita|]; [|cancel_leaf]);
  (destruct (is_2xx c0) eqn:E0; [|cancel_leaf]);
  (destruct (truthy cita) eqn:Ht; [|cancel_leaf]);
  cbn; rewrite answer_cita;
  (destruct (upstream env 1 _) as [c1 d1|]; [|cancel_leaf]);
  (destruct (is_2xx c1) eqn:E1; [|cancel_leaf]);
  cbn; rewrite !(truthy_get_prop _ _ Ht); cbn;
  match goal with
  | |- context [answer env 2 ?q ?t] =>
      destruct (answer env 2 q t) as [[c2 d2|] t2];
      [destruct (is_2xx c2) eqn:E2|]
  end;
  cancel_leaf.

(** X11.  A cancellation, in either revision, never posts to the
    history service.  A slot is asked for, and the table can change,
    only after the appointment was found and its deletion resolved. *)
Theorem cancelar_restores_only_after_deleting
    (env : Env) (tabla : list Row) (idCita : string) :
  let a := run (AgendarCita.delete_cancelar env idCita) tabla in
  let b := run (Revision.delete_cancelar env idCita) tabla in
  (requests_to POST CITA_SERVICE_URL (log a) = []
   /\ ((requests_to POST DISPONIBILIDAD_SERVICE_URL (log a) = []
        /\ Disponibilidad a = tabla)
       \/ (found (upstream env 0 (get_cita idCita)) = true
           /\ resolves (upstream env 1 (delete_cita idCita)) = true)))
  /\ (requests_to POST CITA_SERVICE_URL (log b) = []
      /\ ((requests_to POST DISPONIBILIDAD_SERVICE_URL (log b) = []
           /\ Disponibilidad b = tabla)
          \/ (found (upstream env 0 (get_cita' idCita)) = true
              /\ resolves (upstream env 1 (delete_cita' idCita)) = true))).
Proof.
  unfold get_cita, delete_cita, get_cita', delete_cita'. cbv zeta.
  split; cancel_paths env.
Qed.


(** ** Booking and then cancelling *)

Lemma filter_slot_of (body : agendar_body) (t : list Row) :
  filter (slot_of body) t
  = repeat (the_slot body) (List.length (filter (slot_of body) t)).
Proof.
  induction t as [|r t IH]; [reflexivity|].
  cbn. destruct (slot_of body r) eqn:E; [|exact IH].
  cbn. rewrite <- IH. now rewrite (slot_of_eq body r E).
Qed.

Lemma filter_split_permutation {A : Type} (f : A -> bool) (l : list A) :
  Permutation (filter (fun x => negb (f x)) l ++ filter f l) l.
Proof.
  induction l as [|x l IH]; [constructor|].
  cbn. destruct (f x); cbn.
  - apply Permutation_sym, Permutation_cons_app, Permutation_sym, IH.
  - now constructor.
Qed.

Lemma filter_without_slot (body : agendar_body) (t : list Row) :
  filter (slot_of body) (without_slot body t) = []
  /\ filter (fun r => negb (slot_of body r)) (without_slot body t)
     = without_slot body t.
Proof.
  unfold without_slot. induction t as [|r t [IH1 IH2]]; [split; reflexivity|].
  cbn. destruct (slot_of body r) eqn:E; cbn; [now split|].
  rewrite E. cbn. rewrite IH1, IH2. now split.
Qed.

(** A slot deletion that resolves has removed the rows of the slot of
    the doctor that Express read in the URL. *)
Lemma answer_delete_resolves (env : Env) (n : nat) (body : agendar_body)
    (t : list Row) :
  resolves (fst (answer env n (delete_disponibilidad body) t)) = true ->
  exists dni,
    route_param (dniDoctor body) = Some dni
    /\ snd (answer env n (delete_disponibilidad body) t)
       = filter (not_slot dni (dia body) (hora body)) t.
Proof.
  unfold answer, delete_disponibilidad, DisponibilidadRouter.serve,
    DisponibilidadRouter.route, not_slot. cbn.
  destruct (route_param (dniDoctor body)) as [dni|].
  - unfold DisponibilidadRouter.delete_dni, DisponibilidadRouter.pool_query,
      try_catch, bind, prop, return_, send, respond, ret. cbn.
    destruct (network env n); destruct (pool_ok env n); cbn;
      try discriminate;
      destruct (List.length _ =? 0)%nat; cbn; try discriminate;
      intros _; exists dni; split; reflexivity.
  - destruct (network env n); cbn; discriminate.
Qed.

(** A cancellation that runs through, on any table. *)
Lemma cancelar_runs_through
    (env : Env) (t : list Row) (idCita : string) (code : Z)
    (cita : value) (text dni dia hora : string) :
  is_2xx code = true ->
  cita_slot cita text dia hora ->
  route_param text = Some dni ->
  network env 2 = Delivered ->
  pool_ok env 2 = true ->
  (upstream env 0 (get_cita idCita) = Http code cita ->
   resolves (upstream env 1 (delete_cita idCita)) = true ->
   run (AgendarCita.delete_cancelar env idCita) t
   = {| res := res (run (AgendarCita.delete_cancelar env idCita) t);
        Disponibilidad := (t ++ [mkRow dia hora dni])%list;
        log := log (run (AgendarCita.delete_cancelar env idCita) t) |}
   /\ res (run (AgendarCita.delete_cancelar env idCita) t)
      = Some (200, VStr "Cita cancelada y disponibilidad restaurada con éxito"))
  /\ (upstream env 0 (get_cita' idCita) = Http code cita ->
      resolves (upstream env 1 (delete_cita' idCita)) = true ->
      run (Revision.delete_cancelar env idCita) t
      = {| res := res (run (Revision.delete_cancelar env idCita) t);
           Disponibilidad := (t ++ [mkRow dia hora dni])%list;
           log := log (run (Revision.delete_cancelar env idCita) t) |}
      /\ res (run (Revision.delete_cancelar env idCita) t)
         = Some (200, VStr "Cita cancelada y disponibilidad restaurada con éxito")).
Proof.
  unfold get_cita, delete_cita, get_cita', delete_cita'.
  intros H2 Hc Hdni Hn Hp.
  destruct (cita_slot_object _ _ _ _ Hc) as [Ht [Fd [Fdia Fhora]]].
  split; intros Hget Hdel; handler_calls; rewrite Hget, H2, Ht; cbn;
    rewrite answer_cita;
    (destruct (upstream env 1 _) as [dc dd|]; cbn in Hdel; [|discriminate]);
    rewrite Hdel; cbn; rewrite !(truthy_get_prop _ _ Ht);
    rewrite Fd, Fdia, Fhora; cbn;
    rewrite (answer_post_disponibilidad env 2 text dni dia hora t Hn Hp Hdni);
    cbn; split; reflexivity.
Qed.

(** X13.  A booking for a doctor whose identifier is plain (at most 64
    letters, digits, [-] and [_]), that answers 201 and whose slot
    deletion resolves, followed by the cancellation of that appointment
    (found, deleted, slot insertion served), in either revision: the
    cancellation answers 200 and the table holds every row of the
    other slots as before, in order, followed by the booked slot
    exactly once.  When the table held the slot once before the
    booking, the table at the end is a permutation of the table at the
    start. *)
Theorem agendar_then_cancelar
    (env env' : Env) (tabla : list Row) (body : agendar_body)
    (idCita : string) (code : Z) (cita m : value) :
  plain (dniDoctor body) = true ->
  res (run (AgendarCita.post_agendar env body) tabla) = Some (201, m) ->
  resolves (fst (answer env 4 (delete_disponibilidad body) tabla)) = true ->
  is_2xx code = true ->
  cita_slot cita (dniDoctor body) (dia body) (hora body) ->
  network env' 2 = Delivered ->
  pool_ok env' 2 = true ->
  let t1 := Disponibilidad (run (AgendarCita.post_agendar env body) tabla) in
  let t2 := (without_slot body tabla ++ [the_slot body])%list in
  (upstream env' 0 (get_cita idCita) = Http code cita ->
   resolves (upstream env' 1 (delete_cita idCita)) = true ->
   let w := run (AgendarCita.delete_cancelar env' idCita) t1 in
   res w = Some (200, VStr
             "Cita cancelada y disponibilidad restaurada con éxito")
   /\ Disponibilidad w = t2)
  /\ (upstream env' 0 (get_cita' idCita) = Http code cita ->
      resolves (upstream env' 1 (delete_cita' idCita)) = true ->
      let w := run (Revision.delete_cancelar env' idCita) t1 in
      res w = Some (200, VStr
                "Cita cancelada y disponibilidad restaurada con éxito")
      /\ Disponibilidad w = t2)
  /\ filter (slot_of body) t2 = [the_slot body]
  /\ filter (fun r => negb (slot_of body r)) t2 = without_slot body tabla
  /\ (List.length (filter (slot_of body) tabla) = 1%nat ->
      Permutation t2 tabla).
Proof.
  intros Hplain H201 Hdel H2 Hc Hn Hp. cbv zeta.
  assert (Ht1 : Disponibilidad (run (AgendarCita.post_agendar env body) tabla)
                = without_slot body tabla).
  { unfold run in *.
    destruct (agendar_outcome env tabla body)
      as [[_ [_ [_ [Ht _]]]] | [s [m' [Hres [Hs _]]]]].
    - rewrite Ht.
      destruct (answer_delete_resolves env 4 body tabla Hdel)
        as [dni [Hdni ->]].
      rewrite (route_param_plain _ Hplain) in Hdni.
      now injection Hdni as <-.
    - rewrite Hres in H201. injection H201 as -> _. now contradiction Hs. }
  rewrite Ht1.
  destruct (cancelar_runs_through env' (without_slot body tabla) idCita code
              cita _ _ _ _ H2 Hc (route_param_plain _ Hplain) Hn Hp)
    as [HA HB].
  destruct (filter_without_slot body tabla) as [F1 F2].
  split; [|split; [|split; [|split]]].
  - intros Hget Hd. destruct (HA Hget Hd) as [Hw Hres].
    split; [exact Hres|]. rewrite Hw. reflexivity.
  - intros Hget Hd. destruct (HB Hget Hd) as [Hw Hres].
    split; [exact Hres|]. rewrite Hw. reflexivity.
  - rewrite filter_app, F1. cbn. now rewrite slot_of_the_slot.
  - rewrite filter_app, F2. cbn. rewrite slot_of_the_slot. cbn.
    apply app_nil_r.
  - intros Hone.
    eapply Permutation_trans; [|apply (filter_split_permutation (slot_of body))].
    unfold without_slot. apply Permutation_app_head.
    rewrite (filter_slot_of body tabla), Hone. reflexivity.
Qed.

(** ** List: every run *)

Lemma only_lookups_refl (w : world) : only_lookups w w.
Proof.
  repeat split. exists []. split; [now rewrite app_nil_r|constructor].
Qed.

Lemma only_lookups_trans (w1 w2 w3 : world) :
  only_lookups w1 w2 -> only_lookups w2 w3 -> only_lookups w1 w3.
Proof.
  intros [R1 [T1 [l1 [L1 F1]]]] [R2 [T2 [l2 [L2 F2]]]].
  split; [congruence|]. split; [congruence|].
  exists (l1 ++ l2)%list. split.
  - now rewrite L2, L1, app_assoc.
  - apply Forall_app. now split.
Qed.

Lemma only_lookups_add_called (env : Env) (w : world) (x : value) (a : reply) :
  only_lookups w (add_called w (get_doctor_of x) a).
Proof.
  repeat split. exists [Called (get_doctor_of x) a].
  split; [reflexivity|]. constructor; [now split|constructor].
Qed.

(** What either callback does to the world, whatever the appointment. *)
Lemma con_doctor_only_lookups (env : Env) (x : value) (w : world) :
  (only_lookups w (snd (AgendarCita.con_doctor env x w))
   /\ fst (AgendarCita.con_doctor env x w) <> Returned
   /\ (nullish x = true ->
       fst (AgendarCita.con_doctor env x w) = Thrown TypeError))
  /\ (only_lookups w (snd (Revision.con_doctor env x w))
      /\ fst (Revision.con_doctor env x w) <> Returned
      /\ (nullish x = true ->
          fst (Revision.con_doctor env x w) = Thrown TypeError)).
Proof.
  destruct (nullish x) eqn:Hx.
  - destruct x; try discriminate Hx;
      (split; (split; [apply only_lookups_refl|]);
       (split; [discriminate|reflexivity])).
  - rewrite (con_doctor_entry env x w Hx), (con_doctor_entry' env x w Hx). cbn.
    split; (split; [apply (only_lookups_add_called env)|]);
      (split; [discriminate|discriminate]).
Qed.

Section AllMap.
Variable callback : value -> M value.
Hypothesis callback_lookups :
  forall x w, only_lookups w (snd (callback x w))
              /\ fst (callback x w) <> Returned
              /\ (nullish x = true -> fst (callback x w) = Thrown TypeError).

Lemma all_map_only_lookups (items : list value) (w : world) :
  only_lookups w (snd (all_map callback items w))
  /\ fst (all_map callback items w) <> Returned.
Proof.
  revert w. induction items as [|x rest IH]; intros w.
  - unfold all_map, ret. cbn. split; [apply only_lookups_refl|discriminate].
  - unfold all_map; fold all_map.
    destruct (callback_lookups x w) as [Hw [Hc _]].
    destruct (callback x w) as [[v| |e] w1]; cbn in Hw, Hc.
    + destruct (IH w1) as [Hw2 Hc2].
      destruct (all_map callback rest w1) as [[vs| |e] w2]; cbn in *;
        (split; [eapply only_lookups_trans; eassumption|]);
        [discriminate | now contradiction Hc2 | discriminate].
    + now contradiction Hc.
    + destruct (IH w1) as [Hw2 _]. cbn.
      split; [eapply only_lookups_trans; eassumption|discriminate].
Qed.

Lemma all_map_null (items : list value) (w : world) :
  Exists (fun x => nullish x = true) items ->
  exists e, fst (all_map callback items w) = Thrown e.
Proof.
  revert w. induction items as [|x rest IH]; intros w Hex.
  - inversion Hex.
  - unfold all_map; fold all_map.
    destruct (callback_lookups x w) as [_ [Hc Hnull]].
    destruct (nullish x) eqn:Hx.
    + rewrite (surjective_pairing (callback x w)), (Hnull eq_refl).
      eexists. reflexivity.
    + inversion Hex as [? ? H|? ? H]; subst; [congruence|].
      destruct (callback x w) as [[v| |e] w1]; cbn in Hc.
      * destruct (IH w1 H) as [e He].
        destruct (all_map callback rest w1) as [c w2]. cbn in He. subst c.
        eexists. reflexivity.
      * now contradiction Hc.
      * eexists. reflexivity.
Qed.
End AllMap.

(** Close a leaf of a run of listing in which no doctor was looked up. *)
Ltac list_leaf :=
  cbn;
  solve [
  repeat match goal with
         | |- _ /\ _ => split
         | |- _ <> _ => discriminate
         | |- _ = _ => reflexivity
         | |- forall _, _ => intros
         | |- _ \/ _ => left; reflexivity
         | H : _ \/ _ |- _ => destruct H
         | H : False |- _ => contradiction
         | H : Called _ _ = Called _ _ |- _ => injection H as <- <-
         | H : Sent _ _ = Called _ _ |- _ => discriminate H
         | H : In _ _ |- _ => cbn in H
         end ].

(** The part of a run of listing that maps the callback. *)
Lemma listar_after_map (callback : value -> M value) (dni : string)
    (tabla : list Row) (a0 : reply) (items : list value)
    (handler : exn -> M unit) (code : Z) (b : value) :
  (forall x w, only_lookups w (snd (callback x w))
               /\ fst (callback x w) <> Returned
               /\ (nullish x = true -> fst (callback x w) = Thrown TypeError)) ->
  (forall e, handler e = respond code b) ->
  let w1 := {| res := None; Disponibilidad := tabla;
               log := [Called (get_citas dni) a0] |} in
  let w := snd (try_catch
                  (bind (all_map callback items) (fun l => json (VArr l)))
                  handler w1) in
  res w <> None
  /\ Disponibilidad w = tabla
  /\ (forall q a, In (Called q a) (log w) ->
      meth q = GET /\ (q = get_citas dni \/ base q = DOCTOR_SERVICE_URL))
  /\ (Exists (fun x => nullish x = true) items ->
      res w = Some (received code b)).
Proof.
  intros Hcb Hh. cbv zeta. unfold try_catch, bind.
  match goal with
  | |- context [all_map callback items ?w1] =>
      destruct (all_map_only_lookups callback Hcb items w1)
        as [[R [T [l [L F]]]] Hc];
      pose proof (all_map_null callback Hcb items w1) as Hnull;
      destruct (all_map callback items w1) as [[vs| |e] w2]
  end; cbn in R, T, L, Hc, Hnull.
  - unfold json, respond. rewrite R. cbn. rewrite T, L.
    split; [discriminate|]. split; [reflexivity|]. split.
    + intros q a Hin. cbn in Hin.
      destruct Hin as [Hin|Hin]; [injection Hin as <- <-; now split; [|left]|].
      apply in_app_or in Hin. destruct Hin as [Hin|[Hin|[]]]; [|discriminate].
      rewrite Forall_forall in F. specialize (F _ Hin). cbn in F.
      split; [apply F | right; apply F].
    + intros Hex. destruct (Hnull Hex) as [e He]. discriminate He.
  - now contradiction Hc.
  - rewrite Hh. unfold respond. rewrite R. cbn. rewrite T, L.
    split; [discriminate|]. split; [reflexivity|]. split.
    + intros q a Hin. cbn in Hin.
      destruct Hin as [Hin|Hin]; [injection Hin as <- <-; now split; [|left]|].
      apply in_app_or in Hin. destruct Hin as [Hin|[Hin|[]]]; [|discriminate].
      rewrite Forall_forall in F. specialize (F _ Hin). cbn in F.
      split; [apply F | right; apply F].
    + reflexivity.
Qed.

Lemma try_catch_bind {A B : Type} (m : M A) (k : A -> M B)
    (handler : exn -> M B) (w : world) :
  try_catch (bind m k) handler w
  = match m w with
    | (Normal a, w') => try_catch (k a) handler w'
    | (Returned, w') => (Returned, w')
    | (Thrown e, w') => handler e w'
    end.
Proof.
  unfold try_catch, bind. destruct (m w) as [[a| |e] w']; reflexivity.
Qed.

(** Close a leaf of listing that ended before the callback was mapped. *)
Ltac list_stop :=
  unfold try_catch, bind, return_, throw, ret, send, promise_all_map;
  list_leaf.

(** Run a listing down to the mapping of the callback, closing on the
    way every path that stops before it. *)
Ltac list_paths env :=
  unfold run, AgendarCita.get_dniPaciente, Revision.get_dniPaciente;
  rewrite try_catch_bind; unfold axios_get, axios, start; cbn;
  rewrite answer_cita;
  (destruct (upstream env 0 _) as [c0 d0|]; [|list_stop]);
  (destruct (is_2xx c0); [|list_stop]);
  rewrite try_catch_bind; unfold prop;
  destruct d0 as [| |b0|n0|s0|items|props]; cbn;
  [ list_stop | list_stop | list_stop | list_stop
  | destruct s0; list_stop
  | destruct items as [|x rest]; [list_stop|]; cbn; unfold promise_all_map
  | destruct (truthy (lookup "length" props)); list_stop ].

(** X14.  Listing is read-only, in both revisions and whatever the
    services answer: the availability table is not touched, and every
    request the handler issues is a GET, the first for the patient's
    appointments and the others to the doctor directory. *)
Theorem listar_read_only (env : Env) (tabla : list Row) (dni : string) :
  let a := run (AgendarCita.get_dniPaciente env dni) tabla in
  let b := run (Revision.get_dniPaciente env dni) tabla in
  (Disponibilidad a = tabla
   /\ (forall q r, In (Called q r) (log a) ->
       meth q = GET /\ (q = get_citas dni \/ base q = DOCTOR_SERVICE_URL)))
  /\ (Disponibilidad b = tabla
      /\ (forall q r, In (Called q r) (log b) ->
          meth q = GET /\ (q = get_citas dni \/ base q = DOCTOR_SERVICE_URL))).
Proof.
  unfold get_citas. cbv zeta. split; list_paths env.
  - destruct (listar_after_map (AgendarCita.con_doctor env) dni tabla
                (Http c0 (VArr (x :: rest))) (x :: rest)
                (fun _ => send 500 (VStr "Error al obtener las citas del paciente"))
                500 (VStr "Error al obtener las citas del paciente")
                (fun y w => proj1 (con_doctor_only_lookups env y w))
                (fun _ => eq_refl))
      as [_ [H2 [H3 _]]].
    split; [exact H2|exact H3].
  - destruct (listar_after_map (Revision.con_doctor env) dni tabla
                (Http c0 (VArr (x :: rest))) (x :: rest)
                (fun _ => send 500 (VStr "Error al obtener las citas del paciente"))
                500 (VStr "Error al obtener las citas del paciente")
                (fun y w => proj2 (con_doctor_only_lookups env y w))
                (fun _ => eq_refl))
      as [_ [H2 [H3 _]]].
    split; [exact H2|exact H3].
Qed.

(** X15.  When the request for the patient's appointments is rejected,
    whatever the status (a 404 included) or without any response, both
    revisions answer 500 "Error al obtener las citas del paciente" and
    look up no doctor. *)
Theorem listar_fetch_rejected (env : Env) (tabla : list Row) (dni : string) :
  resolves (upstream env 0 (get_citas dni)) = false ->
  let a := run (AgendarCita.get_dniPaciente env dni) tabla in
  let b := run (Revision.get_dniPaciente env dni) tabla in
  res a = Some (500, VStr "Error al obtener las citas del paciente")
  /\ log a = [Called (get_citas dni) (upstream env 0 (get_citas dni));
              Sent 500 (VStr "Error al obtener las citas del paciente")]
  /\ res b = res a
  /\ log b = log a.
Proof.
  unfold get_citas. intros H. handler_calls.
  destruct (upstream env 0 _) as [c d|]; cbn in H; [rewrite H|]; cbn;
    repeat split; reflexivity.
Qed.

(** X16.  One [null] among the appointments fails the whole listing:
    the callback's [catch] block reads [cita.dniDoctor] for its log
    message, throws again, and both revisions answer 500 instead of the
    list, however the doctor lookups of the other appointments went. *)
Theorem listar_null_appointment
    (env : Env) (tabla : list Row) (dni : string) (code : Z)
    (citas : list value) :
  upstream env 0 (get_citas dni) = Http code (VArr citas) ->
  is_2xx code = true ->
  Exists (fun cita => nullish cita = true) citas ->
  res (run (AgendarCita.get_dniPaciente env dni) tabla)
  = Some (500, VStr "Error al obtener las citas del paciente")
  /\ res (run (Revision.get_dniPaciente env dni) tabla)
     = Some (500, VStr "Error al obtener las citas del paciente").
Proof.
  unfold get_citas. intros Hget H2 Hex.
  destruct citas as [|x rest]; [inversion Hex|].
  split.
  - unfold run, AgendarCita.get_dniPaciente.
    rewrite try_catch_bind. unfold axios_get, axios, start. cbn.
    rewrite answer_cita, Hget, H2. rewrite try_catch_bind. unfold prop. cbn.
    unfold promise_all_map.
    apply (listar_after_map (AgendarCita.con_doctor env) dni tabla
             (Http code (VArr (x :: rest))) (x :: rest)
             (fun _ => send 500 (VStr "Error al obtener las citas del paciente"))
             500 (VStr "Error al obtener las citas del paciente")
             (fun y w => proj1 (con_doctor_only_lookups env y w))
             (fun _ => eq_refl)).
    exact Hex.
  - unfold run, Revision.get_dniPaciente.
    rewrite try_catch_bind. unfold axios_get, axios, start. cbn.
    rewrite answer_cita, Hget, H2. rewrite try_catch_bind. unfold prop. cbn.
    unfold promise_all_map.
    apply (listar_after_map (Revision.con_doctor env) dni tabla
             (Http code (VArr (x :: rest))) (x :: rest)
             (fun _ => send 500 (VStr "Error al obtener las citas del paciente"))
             500 (VStr "Error al obtener las citas del paciente")
             (fun y w => proj2 (con_doctor_only_lookups env y w))
             (fun _ => eq_refl)).
    exact Hex.
Qed.

Lemma lookup_set_prop_other (k k' : string) (v : value)
    (props : list (string * value)) :
  String.eqb k' k = false ->
  lookup k' (set_prop k v props) = lookup k' props.
Proof.
  intros Hne. induction props as [|[k0 v0] rest IH]; cbn.
  - now rewrite Hne.
  - destruct (String.eqb k k0) eqn:E; cbn.
    + apply String.eqb_eq in E. subst k0. now rewrite Hne.
    + now rewrite IH.
Qed.

(** X17.  The entry of an appointment whose doctor lookup did not
    resolve is, in both revisions, the appointment object as the
    history service sent it with [doctor] set to the error text: every
    other field reads as in the appointment ([dia], [dniDoctor],
    [dniPaciente] are there, a [fecha] only if the appointment had
    one). *)
Theorem con_doctor_keeps_the_appointment
    (env : Env) (props : list (string * value)) (w : world) (k : string) :
  resolves (upstream env (issued (log w)) (get_doctor_of (VObj props)))
  = false ->
  exists entry,
    fst (AgendarCita.con_doctor env (VObj props) w) = Normal entry
    /\ fst (Revision.con_doctor env (VObj props) w) = Normal entry
    /\ get_prop entry k
       = Some (if String.eqb k "doctor" then VStr doctor_error
               else lookup k props).
Proof.
  intros H.
  rewrite (con_doctor_entry env (VObj props) w eq_refl),
    (con_doctor_entry' env (VObj props) w eq_refl).
  exists (marked (VObj props)). unfold entry_of.
  destruct (upstream env _ _) as [c d|]; cbn in H; [rewrite H|]; cbn;
    (split; [reflexivity|]); (split; [reflexivity|]);
    (destruct (String.eqb k "doctor") eqn:E;
     [apply String.eqb_eq in E; subst k; now rewrite lookup_set_prop
     |now rewrite lookup_set_prop_other]).
Qed.

(** ** Book: after the verifications *)

(** A run of booking whose patient and doctor are found, by what the
    availability service and the history service answer. *)
Lemma agendar_verified (env : Env) (tabla : list Row) (body : agendar_body) :
  found (upstream env 0 (get_paciente body)) = true ->
  found (upstream env 1 (get_doctor body)) = true ->
  let w := run (AgendarCita.post_agendar env body) tabla in
  let listed := resolves (fst (answer env 2 (get_disponibilidad body) tabla)) in
  let created := resolves (upstream env 3 (post_cita body)) in
  (listed = false ->
   res w = Some (500, VStr "Error al agendar la cita")
   /\ Disponibilidad w = tabla
   /\ requests_to POST CITA_SERVICE_URL (log w) = []
   /\ requests_to DELETE DISPONIBILIDAD_SERVICE_URL (log w) = [])
  /\ (forall dni,
        route_param (dniDoctor body) = Some dni ->
        listed = true ->
        let free :=
          existsb (DisponibilidadRouter.is_slot dni (dia body) (hora body))
            tabla in
        (free = false ->
         res w = Some (400, VStr
                   "El doctor no está disponible en la fecha y hora solicitadas.")
         /\ Disponibilidad w = tabla
         /\ requests_to POST CITA_SERVICE_URL (log w) = [])
        /\ (free = true -> created = false ->
            res w = Some (500, VStr "Error al agendar la cita")
            /\ Disponibilidad w = tabla
            /\ requests_to POST CITA_SERVICE_URL (log w) = [post_cita body]
            /\ requests_to DELETE DISPONIBILIDAD_SERVICE_URL (log w) = [])
        /\ (free = true -> created = true ->
            res w = Some (201, VStr "Cita agendada con éxito")
            /\ Disponibilidad w
               = snd (answer env 4 (delete_disponibilidad body) tabla)
            /\ requests_to POST CITA_SERVICE_URL (log w) = [post_cita body])).
Proof.
  unfold get_paciente, get_doctor, get_disponibilidad, post_cita, citaData,
    delete_disponibilidad.
  intros Hp Hd. cbv zeta. handler_calls.
  found_reply Hp. rewrite answer_doctor. found_reply Hd.
  destruct (answer_get_disponibilidad env 2 (dniDoctor body) tabla)
    as [Hsame [Hrows _]].
  destruct (answer env 2 _ tabla) as [a t]. cbn in Hsame, Hrows. subst t.
  cbn [fst].
  destruct (resolves a) eqn:Ha.
  - split; [discriminate|]. intros dni Hdni _.
    destruct (Hrows eq_refl) as [dni' [Hdni' ->]].
    rewrite Hdni in Hdni'. injection Hdni' as <-. cbn.
    rewrite some_slot_rows, existsb_of_doctor.
    destruct (existsb _ tabla) eqn:Hfree; cbn.
    + rewrite answer_cita.
      destruct (upstream env 3 _) as [cc cd|]; cbn.
      * destruct (is_2xx cc) eqn:Hc; cbn.
        -- destruct (answer env 4 _ tabla) as [[c4 d4|] t4];
             [destruct (is_2xx c4)|]; cbn;
             repeat split; intros; try discriminate; reflexivity.
        -- repeat split; intros; try discriminate; reflexivity.
      * repeat split; intros; try discriminate; reflexivity.
    + repeat split; intros; try discriminate; reflexivity.
  - split; [|discriminate].
    destruct a as [ac ad|]; cbn in Ha; [rewrite Ha|]; cbn;
      repeat split; intros; try discriminate; reflexivity.
Qed.


Lemma existsb_not_slot (dni dia hora : string) (t : list Row) :
  existsb (DisponibilidadRouter.is_slot dni dia hora)
    (filter (not_slot dni dia hora) t) = false.
Proof.
  apply existsb_false_iff. intros r Hr.
  apply filter_In in Hr. destruct Hr as [_ Hr].
  now apply negb_true_iff in Hr.
Qed.

(** X19.  No double booking when the slot deletion resolved.  After a
    booking that answered 201 and whose slot deletion resolved, a
    second booking of the same doctor, day and time (by any patient,
    both found, the availability list fetched) answers 400, creates
    nothing and leaves the table as the first booking left it. *)
Theorem agendar_twice_is_refused
    (env env' : Env) (tabla : list Row) (body body' : agendar_body)
    (m : value) :
  res (run (AgendarCita.post_agendar env body) tabla) = Some (201, m) ->
  resolves (fst (answer env 4 (delete_disponibilidad body) tabla)) = true ->
  dniDoctor body' = dniDoctor body ->
  dia body' = dia body ->
  hora body' = hora body ->
  let t1 := Disponibilidad (run (AgendarCita.post_agendar env body) tabla) in
  found (upstream env' 0 (get_paciente body')) = true ->
  found (upstream env' 1 (get_doctor body')) = true ->
  resolves (fst (answer env' 2 (get_disponibilidad body') t1)) = true ->
  let w := run (AgendarCita.post_agendar env' body') t1 in
  res w = Some (400, VStr
            "El doctor no está disponible en la fecha y hora solicitadas.")
  /\ requests_to POST CITA_SERVICE_URL (log w) = []
  /\ Disponibilidad w = t1.
Proof.
  intros H201 Hdel Edni Edia Ehora. cbv zeta.
  assert (Ht1 : exists dni,
             route_param (dniDoctor body) = Some dni
             /\ Disponibilidad (run (AgendarCita.post_agendar env body) tabla)
                = filter (not_slot dni (dia body) (hora body)) tabla).
  { unfold run in *.
    destruct (agendar_outcome env tabla body)
      as [[_ [_ [_ [Ht _]]]] | [s [m' [Hres [Hs _]]]]].
    - rewrite Ht. now apply answer_delete_resolves.
    - rewrite Hres in H201. injection H201 as -> _. now contradiction Hs. }
  destruct Ht1 as [dni [Hdni Ht1]]. rewrite Ht1. intros Hp Hd Hl.
  rewrite <- Edni in Hdni.
  destruct (agendar_verified env'
              (filter (not_slot dni (dia body) (hora body)) tabla) body' Hp Hd)
    as [_ H2].
  destruct (H2 dni Hdni Hl) as [H400 _].
  rewrite Edia, Ehora in H400.
  destruct (H400 (existsb_not_slot _ _ _ _)) as [Rs [T P]].
  now repeat split.
Qed.

(** X20.  Double booking when the slot deletion failed.  After a
    booking for a doctor whose identifier is plain (at most 64 letters,
    digits, [-] and [_]), that answered 201 but whose deletion request
    did not reach the router or met a database that did not answer, the
    slot is still in the table, and a second booking of it (by any
    patient, every service answering) answers 201 again and creates a
    second appointment for the same doctor, day and time. *)
Theorem agendar_twice_after_failed_deletion
    (env env' : Env) (tabla : list Row) (body body' : agendar_body)
    (m : value) :
  plain (dniDoctor body) = true ->
  res (run (AgendarCita.post_agendar env body) tabla) = Some (201, m) ->
  network env 4 = Dropped \/ pool_ok env 4 = false ->
  dniDoctor body' = dniDoctor body ->
  dia body' = dia body ->
  hora body' = hora body ->
  let t1 := Disponibilidad (run (AgendarCita.post_agendar env body) tabla) in
  found (upstream env' 0 (get_paciente body')) = true ->
  found (upstream env' 1 (get_doctor body')) = true ->
  resolves (fst (answer env' 2 (get_disponibilidad body') t1)) = true ->
  resolves (upstream env' 3 (post_cita body')) = true ->
  let w := run (AgendarCita.post_agendar env' body') t1 in
  t1 = tabla
  /\ In (the_slot body) t1
  /\ res w = Some (201, VStr "Cita agendada con éxito")
  /\ requests_to POST CITA_SERVICE_URL (log w) = [post_cita body'].
Proof.
  intros Hplain H201 Hfail Edni Edia Ehora. cbv zeta.
  assert (Ht1 : Disponibilidad (run (AgendarCita.post_agendar env body) tabla)
                = tabla
                /\ existsb (slot_of body) tabla = true).
  { unfold run in *.
    destruct (agendar_outcome env tabla body)
      as [[[dni [Hdni Hfree]] [_ [_ [Ht _]]]] | [s [m' [Hres [Hs _]]]]].
    - rewrite (route_param_plain _ Hplain) in Hdni. injection Hdni as <-.
      split; [|exact Hfree].
      rewrite Ht. apply answer_delete_disponibilidad. tauto.
    - rewrite Hres in H201. injection H201 as -> _. now contradiction Hs. }
  destruct Ht1 as [-> Hfree]. intros Hp Hd Hl Hc.
  destruct (agendar_verified env' tabla body' Hp Hd) as [_ H2].
  assert (Hdni' : route_param (dniDoctor body') = Some (dniDoctor body))
    by (rewrite Edni; now apply route_param_plain).
  destruct (H2 _ Hdni' Hl) as [_ [_ H4]].
  rewrite Edia, Ehora in H4.
  destruct (H4 Hfree Hc) as [Rs [_ P]].
  split; [reflexivity|]. split; [|now split].
  apply existsb_exists in Hfree. destruct Hfree as [r [Hin Hr]].
  now rewrite <- (slot_of_eq body r Hr).
Qed.

(** X21.  Cancelling an appointment that has no [dniDoctor]: the
    template literal of the URL turns the missing value into the text
    "undefined", and both revisions ask the availability service to
    insert the slot for a doctor of that name; when the service accepts
    it, they answer 200. *)
Theorem cancelar_without_dniDoctor
    (env : Env) (tabla : list Row) (idCita : string) (code : Z)
    (cita : value) :
  is_2xx code = true ->
  truthy cita = true ->
  field cita "dniDoctor" = VUndefined ->
  let q := mkRequest POST DISPONIBILIDAD_SERVICE_URL ["undefined"]
             (Some (VObj [("dia", field cita "dia");
                          ("hora", field cita "hora")])) in
  resolves (fst (answer env 2 q tabla)) = true ->
  (upstream env 0 (get_cita idCita) = Http code cita ->
   resolves (upstream env 1 (delete_cita idCita)) = true ->
   let w := run (AgendarCita.delete_cancelar env idCita) tabla in
   requests_to POST DISPONIBILIDAD_SERVICE_URL (log w) = [q]
   /\ res w = Some (200, VStr
                "Cita cancelada y disponibilidad restaurada con éxito"))
  /\ (upstream env 0 (get_cita' idCita) = Http code cita ->
      resolves (upstream env 1 (delete_cita' idCita)) = true ->
      let w := run (Revision.delete_cancelar env idCita) tabla in
      requests_to POST DISPONIBILIDAD_SERVICE_URL (log w) = [q]
      /\ res w = Some (200, VStr
                   "Cita cancelada y disponibilidad restaurada con éxito")).
Proof.
  unfold get_cita, delete_cita, get_cita', delete_cita'.
  intros H2 Ht Hu. cbv zeta. intros Hq.
  split; intros Hget Hdel; handler_calls; rewrite Hget, H2, Ht; cbn;
    rewrite answer_cita;
    (destruct (upstream env 1 _) as [dc dd|]; cbn in Hdel; [|discriminate]);
    rewrite Hdel; cbn; rewrite !(truthy_get_prop _ _ Ht); rewrite Hu; cbn;
    (destruct (answer env 2 _ tabla) as [[c2 d2|] t2]; cbn in Hq;
     [rewrite Hq|discriminate]);
    cbn; split; reflexivity.
Qed.

End Routed.

(** ** The statements at work

    The statements above, tried on the data: identifiers are plain, and
    every server reads those alike. *)

#[local] Existing Instance solo_simples.

(** An identifier with a query: the booking for [45?x] is served on the
    rows of doctor 45, whose slot goes; the table never held a row of
    a doctor [45?x]. *)
Example agendar_identifier_with_query :
  let tabla := [mkRow "Lunes" "09:00:00" "45"] in
  let w := run (AgendarCita.post_agendar (R := sin_consulta) todo_bien
                  (lunes_9_de "45?x")) tabla in
  plain "45?x" = false
  /\ res w = Some (201, VStr "Cita agendada con éxito")
  /\ Disponibilidad w = []
  /\ ~ In (the_slot (lunes_9_de "45?x")) tabla.
Proof.
  cbv zeta. repeat split; try reflexivity.
  intros [H|[]]. discriminate H.
Qed.

(** An identifier with a slash: no route, the fetch of the list is
    refused and booking answers 500, with every service up and the
    row of a doctor [45/6] in the table. *)
Example agendar_identifier_with_slash :
  let tabla := [mkRow "Lunes" "09:00:00" "45/6"] in
  let w := run (AgendarCita.post_agendar (R := sin_consulta) todo_bien
                  (lunes_9_de "45/6")) tabla in
  plain "45/6" = false
  /\ In (the_slot (lunes_9_de "45/6")) tabla
  /\ res w = Some (500, VStr "Error al agendar la cita")
  /\ Disponibilidad w = tabla.
Proof. cbv zeta. repeat split; try reflexivity. now left. Qed.

Lemma agendar_paciente_no_encontrado_witness :
  not_found (upstream (con_fallo 0 (Http 404 (VStr "")))
               0 (get_paciente lunes_9)) = true
  /\ res (run (AgendarCita.post_agendar (con_fallo 0 (Http 404 (VStr "")))
                 lunes_9) agenda_456)
     = Some (404, VStr "Paciente no encontrado").
Proof.
  split; [reflexivity|].
  apply (agendar_paciente_no_encontrado
           (con_fallo 0 (Http 404 (VStr ""))) agenda_456 lunes_9).
  reflexivity.
Defined.

Lemma agendar_not_found_by_status_or_body_witness :
  (200 = 404 \/ (is_2xx 200 = true /\ truthy (VStr "") = false))
  /\ res (run (AgendarCita.post_agendar (con_fallo 1 (Http 200 (VStr "")))
                 lunes_9) agenda_456)
     = Some (404, VStr "Doctor no encontrado").
Proof.
  split; [right; split; reflexivity|].
  apply (agendar_not_found_by_status_or_body
           (con_fallo 1 (Http 200 (VStr ""))) agenda_456 lunes_9
           200 (VStr ""));
    [right; split; reflexivity | reflexivity | reflexivity].
Defined.






Lemma agendar_responde_antes_de_eliminar_witness :
  In (Sent 201 (VStr "Cita agendada con éxito"))
     (log (run (AgendarCita.post_agendar (base_caida 4) lunes_9) agenda_456))
  /\ resolves (fst (answer (base_caida 4) 4
                      (delete_disponibilidad lunes_9) agenda_456)) = false
  /\ res (run (AgendarCita.post_agendar (base_caida 4) lunes_9) agenda_456)
     = Some (201, VStr "Cita agendada con éxito").
Proof.
  assert (H : In (Sent 201 (VStr "Cita agendada con éxito"))
                (log (run (AgendarCita.post_agendar (base_caida 4) lunes_9)
                        agenda_456)))
    by (vm_compute; tauto).
  split; [exact H|]. split; [reflexivity|].
  destruct (agendar_responde_antes_de_eliminar
              (base_caida 4) agenda_456 lunes_9 _ H)
    as [pre [a [_ [_ [_ [_ Hres]]]]]].
  exact Hres.
Defined.

Lemma get_dni_lists_the_slots_witness :
  res (run (DisponibilidadRouter.get_dni true "456") agenda_456)
  = Some (200, VArr [DisponibilidadRouter.row_json (mkRow "Lunes" "09:00:00" "456");
                     DisponibilidadRouter.row_json (mkRow "Martes" "10:00:00" "456")])
  /\ 200 = 200.
Proof.
  split; [reflexivity|].
  apply (get_dni_lists_the_slots true "456" agenda_456 200
           (VArr [DisponibilidadRouter.row_json (mkRow "Lunes" "09:00:00" "456");
                  DisponibilidadRouter.row_json (mkRow "Martes" "10:00:00" "456")]));
    reflexivity.
Defined.

Lemma cancelar_restauracion_falla_witness :
  resolves (fst (answer (historia (Http 200 cita_7) (fun _ => false)) 2
                   (post_disponibilidad cita_7) [])) = false
  /\ res (run (AgendarCita.delete_cancelar
                 (historia (Http 200 cita_7) (fun _ => false)) "7") [])
     = Some (500, VStr
         "Error restarurando la disponibilidad para el doctor 456 en Lunes a las 09:00:00").
Proof.
  split; [reflexivity|].
  apply (proj1 (cancelar_restauracion_falla
                  (historia (Http 200 cita_7) (fun _ => false)) [] "7"
                  200 cita_7 eq_refl eq_refl eq_refl));
    reflexivity.
Defined.

Lemma listar_citas_witness :
  upstream listado 0 (get_citas "123") = Http 200 (VArr [cita_7; cita_8])
  /\ is_2xx 200 = true
  /\ exists entries,
       res (run (AgendarCita.get_dniPaciente listado "123") [])
       = Some (200, VArr entries)
       /\ List.length entries = 2%nat.
Proof.
  split; [reflexivity|]. split; [reflexivity|].
  destruct (proj2 (listar_citas listado [] "123" 200 [cita_7; cita_8]
                     eq_refl eq_refl))
    as [entries [entries' [H1 [_ [H3 _]]]]].
  - discriminate.
  - repeat constructor.
  - exists entries. split; assumption.
Defined.

Lemma post_dni_then_get_dni_witness :
  slot_body (VObj [("dia", VStr "Jueves"); ("hora", VStr "08:00:00")])
    "Jueves" "08:00:00"
  /\ Disponibilidad
       (run (DisponibilidadRouter.post_dni true "456"
               (VObj [("dia", VStr "Jueves"); ("hora", VStr "08:00:00")]))
          agenda_456)
     = (agenda_456 ++ [mkRow "Jueves" "08:00:00" "456"])%list.
Proof.
  split; [split; reflexivity|].
  apply (post_dni_then_get_dni "456" "Jueves" "08:00:00"
           (VObj [("dia", VStr "Jueves"); ("hora", VStr "08:00:00")])
           agenda_456).
  split; reflexivity.
Defined.

Lemma delete_dni_slot_absent_witness :
  slot_body (VObj [("dia", VStr "Jueves"); ("hora", VStr "08:00:00")])
    "Jueves" "08:00:00"
  /\ res (run (DisponibilidadRouter.delete_dni true "456"
                 (VObj [("dia", VStr "Jueves"); ("hora", VStr "08:00:00")]))
            agenda_456)
     = Some (404, VStr "Disponibilidad no encontrada").
Proof.
  split; [split; reflexivity|].
  apply (delete_dni_slot_absent "456" "Jueves" "08:00:00"
           (VObj [("dia", VStr "Jueves"); ("hora", VStr "08:00:00")])
           agenda_456).
  - split; reflexivity.
  - intros r [<-|[<-|[<-|[]]]]; reflexivity.
Defined.

Lemma delete_dni_slot_present_witness :
  slot_body (VObj [("dia", VStr "Lunes"); ("hora", VStr "09:00:00")])
    "Lunes" "09:00:00"
  /\ Disponibilidad
       (run (DisponibilidadRouter.delete_dni true "456"
               (VObj [("dia", VStr "Lunes"); ("hora", VStr "09:00:00")]))
          agenda_456)
     = filter (not_slot "456" "Lunes" "09:00:00") agenda_456.
Proof.
  split; [split; reflexivity|].
  apply (delete_dni_slot_present "456" "Lunes" "09:00:00"
           (VObj [("dia", VStr "Lunes"); ("hora", VStr "09:00:00")])
           agenda_456).
  - split; reflexivity.
  - exists (mkRow "Lunes" "09:00:00" "456"). split; [now left | reflexivity].
Defined.

Lemma post_dni_then_delete_dni_witness :
  slot_body (VObj [("dia", VStr "Jueves"); ("hora", VStr "08:00:00")])
    "Jueves" "08:00:00"
  /\ Disponibilidad
       (run (DisponibilidadRouter.delete_dni true "456"
               (VObj [("dia", VStr "Jueves"); ("hora", VStr "08:00:00")]))
          (Disponibilidad
             (run (DisponibilidadRouter.post_dni true "456"
                     (VObj [("dia", VStr "Jueves"); ("hora", VStr "08:00:00")]))
                agenda_456)))
     = agenda_456.
Proof.
  split; [split; reflexivity|].
  apply (post_dni_then_delete_dni "456" "Jueves" "08:00:00"
           (VObj [("dia", VStr "Jueves"); ("hora", VStr "08:00:00")])
           agenda_456).
  - split; reflexivity.
  - intros r [<-|[<-|[<-|[]]]]; reflexivity.
Defined.

Lemma disponibilidad_database_down_witness :
  nullish (VObj []) = false
  /\ res (run (DisponibilidadRouter.delete_dni false "456" (VObj []))
            agenda_456)
     = Some (500, VStr "Error al eliminar la disponibilidad").
Proof.
  split; [reflexivity|].
  apply (disponibilidad_database_down "456" (VObj []) agenda_456).
  reflexivity.
Defined.

Lemma delete_dni_missing_field_witness :
  nullish (VObj [("hora", VStr "09:00:00")]) = false
  /\ res (run (DisponibilidadRouter.delete_dni true "456"
                 (VObj [("hora", VStr "09:00:00")])) agenda_456)
     = Some (404, VStr "Disponibilidad no encontrada").
Proof.
  split; [reflexivity|].
  apply (delete_dni_missing_field "456" (VObj [("hora", VStr "09:00:00")])
           agenda_456);
    try reflexivity.
  left. reflexivity.
Defined.

Lemma agendar_201_or_untouched_witness :
  res (run (AgendarCita.post_agendar (con_fallo 3 (Http 500 (VStr "")))
              lunes_9) agenda_456)
  = Some (500, VStr "Error al agendar la cita")
  /\ Disponibilidad
       (run (AgendarCita.post_agendar (con_fallo 3 (Http 500 (VStr "")))
               lunes_9) agenda_456)
     = agenda_456.
Proof.
  split; [reflexivity|].
  destruct (agendar_201_or_untouched
              (con_fallo 3 (Http 500 (VStr ""))) agenda_456 lunes_9
              500 (VStr "Error al agendar la cita") eq_refl)
    as [_ Hother].
  destruct Hother as [Htabla _]; [discriminate|exact Htabla].
Defined.

Lemma agendar_throws_after_201_witness :
  res (snd (AgendarCita.post_agendar (base_caida 4) lunes_9 (start agenda_456)))
  = Some (201, VStr "Cita agendada con éxito")
  /\ resolves (fst (answer (base_caida 4) 4
                      (delete_disponibilidad lunes_9) agenda_456)) = false
  /\ fst (AgendarCita.post_agendar (base_caida 4) lunes_9 (start agenda_456))
     = Thrown ERR_HTTP_HEADERS_SENT.
Proof.
  split; [reflexivity|]. split; [reflexivity|].
  apply (proj2 (agendar_throws_after_201 (base_caida 4) agenda_456 lunes_9)
           (VStr "Cita agendada con éxito"));
    reflexivity.
Defined.

Lemma cancelar_restaura_la_disponibilidad_witness :
  cita_slot cita_7 "456" "Lunes" "09:00:00"
  /\ plain "456" = true
  /\ Disponibilidad
       (run (AgendarCita.delete_cancelar
               (historia (Http 200 cita_7) (fun _ => true)) "7")
          [mkRow "Martes" "10:00:00" "456"])
     = [mkRow "Martes" "10:00:00" "456"; mkRow "Lunes" "09:00:00" "456"].
Proof.
  split; [repeat split; reflexivity|]. split; [reflexivity|].
  apply (proj1 (cancelar_restaura_la_disponibilidad
                  (historia (Http 200 cita_7) (fun _ => true))
                  [mkRow "Martes" "10:00:00" "456"] "7" 200 cita_7
                  "456" "Lunes" "09:00:00" eq_refl
                  (conj eq_refl (conj eq_refl eq_refl))
                  eq_refl eq_refl eq_refl));
    reflexivity.
Defined.



Lemma agendar_then_cancelar_witness :
  plain (dniDoctor lunes_9) = true
  /\ res (run (AgendarCita.post_agendar todo_bien lunes_9) agenda_456)
     = Some (201, VStr "Cita agendada con éxito")
  /\ Disponibilidad
       (run (AgendarCita.delete_cancelar
               (historia (Http 200 cita_7) (fun _ => true)) "7")
          (Disponibilidad
             (run (AgendarCita.post_agendar todo_bien lunes_9) agenda_456)))
     = (without_slot lunes_9 agenda_456 ++ [the_slot lunes_9])%list.
Proof.
  split; [reflexivity|]. split; [reflexivity|].
  apply (proj1 (agendar_then_cancelar todo_bien
                  (historia (Http 200 cita_7) (fun _ => true))
                  agenda_456 lunes_9 "7" 200 cita_7
                  (VStr "Cita agendada con éxito")
                  eq_refl eq_refl eq_refl eq_refl
                  (conj eq_refl (conj eq_refl eq_refl)) eq_refl eq_refl));
    reflexivity.
Defined.

Lemma listar_fetch_rejected_witness :
  resolves (upstream (historia (Http 404 (VStr "")) (fun _ => true))
              0 (get_citas "123")) = false
  /\ res (run (AgendarCita.get_dniPaciente
                 (historia (Http 404 (VStr "")) (fun _ => true)) "123") [])
     = Some (500, VStr "Error al obtener las citas del paciente").
Proof.
  split; [reflexivity|].
  apply (listar_fetch_rejected
           (historia (Http 404 (VStr "")) (fun _ => true)) [] "123").
  reflexivity.
Defined.

Lemma listar_null_appointment_witness :
  upstream (historia (Http 200 (VArr [cita_7; VNull])) (fun _ => true))
    0 (get_citas "123") = Http 200 (VArr [cita_7; VNull])
  /\ res (run (Revision.get_dniPaciente
                 (historia (Http 200 (VArr [cita_7; VNull])) (fun _ => true))
                 "123") [])
     = Some (500, VStr "Error al obtener las citas del paciente").
Proof.
  split; [reflexivity|].
  apply (listar_null_appointment
           (historia (Http 200 (VArr [cita_7; VNull])) (fun _ => true))
           [] "123" 200 [cita_7; VNull] eq_refl eq_refl).
  apply Exists_cons_tl, Exists_cons_hd. reflexivity.
Defined.

Lemma con_doctor_keeps_the_appointment_witness :
  resolves (upstream listado (issued [Called (get_citas "123") NoResponse;
                                      Called (get_doctor_of cita_7) NoResponse])
              (get_doctor_of cita_8)) = false
  /\ exists entry,
       fst (AgendarCita.con_doctor listado cita_8
              {| res := None; Disponibilidad := [];
                 log := [Called (get_citas "123") NoResponse;
                         Called (get_doctor_of cita_7) NoResponse] |})
       = Normal entry
       /\ get_prop entry "dia" = Some (VStr "Martes").
Proof.
  split; [reflexivity|].
  destruct (con_doctor_keeps_the_appointment listado
              [("id", VNum 8); ("dniPaciente", VStr "123");
               ("dniDoctor", VStr "789"); ("dia", VStr "Martes");
               ("hora", VStr "10:00:00")]
              {| res := None; Disponibilidad := [];
                 log := [Called (get_citas "123") NoResponse;
                         Called (get_doctor_of cita_7) NoResponse] |}
              "dia" eq_refl)
    as [entry [HA [_ Hk]]].
  exists entry. split; [exact HA|exact Hk].
Defined.


Lemma agendar_twice_is_refused_witness :
  res (run (AgendarCita.post_agendar todo_bien lunes_9) agenda_456)
  = Some (201, VStr "Cita agendada con éxito")
  /\ res (run (AgendarCita.post_agendar todo_bien lunes_9)
            (Disponibilidad
               (run (AgendarCita.post_agendar todo_bien lunes_9) agenda_456)))
     = Some (400, VStr
         "El doctor no está disponible en la fecha y hora solicitadas.").
Proof.
  split; [reflexivity|].
  apply (agendar_twice_is_refused todo_bien todo_bien agenda_456
           lunes_9 lunes_9 (VStr "Cita agendada con éxito"));
    reflexivity.
Defined.

Lemma agendar_twice_after_failed_deletion_witness :
  plain (dniDoctor lunes_9) = true
  /\ res (run (AgendarCita.post_agendar (base_caida 4) lunes_9) agenda_456)
     = Some (201, VStr "Cita agendada con éxito")
  /\ res (run (AgendarCita.post_agendar todo_bien lunes_9)
            (Disponibilidad
               (run (AgendarCita.post_agendar (base_caida 4) lunes_9)
                  agenda_456)))
     = Some (201, VStr "Cita agendada con éxito").
Proof.
  split; [reflexivity|]. split; [reflexivity|].
  apply (agendar_twice_after_failed_deletion (base_caida 4) todo_bien
           agenda_456 lunes_9 lunes_9 (VStr "Cita agendada con éxito"));
    try reflexivity.
  right. reflexivity.
Defined.

Lemma cancelar_without_dniDoctor_witness :
  field cita_sin_doctor "dniDoctor" = VUndefined
  /\ Disponibilidad
       (run (AgendarCita.delete_cancelar
               (historia (Http 200 cita_sin_doctor) (fun _ => true)) "9") [])
     = [mkRow "Lunes" "09:00:00" "undefined"]
  /\ res (run (AgendarCita.delete_cancelar
                 (historia (Http 200 cita_sin_doctor) (fun _ => true)) "9") [])
     = Some (200, VStr "Cita cancelada y disponibilidad restaurada con éxito").
Proof.
  split; [reflexivity|]. split; [reflexivity|].
  apply (proj1 (cancelar_without_dniDoctor
                  (historia (Http 200 cita_sin_doctor) (fun _ => true))
                  [] "9" 200 cita_sin_doctor
                  eq_refl eq_refl eq_refl eq_refl));
    reflexivity.
Defined.
